(** * applevision_visualizer: the marker publisher of applevision_rospkg

    A shallow embedding of [bin/applevision_visualizer.py] and the
    properties of its three classes: [HeaderCalc], [CamVizHandler] and
    [KalmanVizHandler].

    Conventions of the embedding.
    - A Python [float] is an IEEE 754 binary64 number: Rocq's primitive
      [float], whose [+], [-], [*], [/] and [sqrt] round to nearest even as
      the hardware's do.  There is one NaN.
    - A Python [int] is unbounded: [Z].
    - [math.tan] and [math.atan] belong to the C library; they are the
      variables [tan] and [atan] of the sections that need them.
    - The middleware (clock, transform service, publisher) is a [World].
      A method is a computation in a state-and-exception monad [M] whose
      state is the object it is called on together with the world. *)

From Stdlib Require Import ZArith NArith List String Bool Lia.
From Stdlib Require Import Floats.
Import ListNotations.

Set Warnings "-inexact-float".

Local Open Scope Z_scope.
Local Open Scope string_scope.

(** ** ROS messages *)

(** [rospy.Time] and [rospy.Duration]: seconds and nanoseconds. *)
Record Time := { secs : Z; nsecs : Z }.
Definition Time0 : Time := {| secs := 0; nsecs := 0 |}.
Definition Duration := Time.

(** [std_msgs/Header]. *)
Record Header := {
  seq : Z;
  stamp : Time;
  header_frame_id : string
}.
Definition Header0 : Header :=
  {| seq := 0; stamp := Time0; header_frame_id := "" |}.

(** [geometry_msgs/Point], [Vector3] and [Quaternion]: float64 fields. *)
Record Point := { x : float; y : float; z : float }.
Record Vector3 := { vx : float; vy : float; vz : float }.
Record Quaternion := { qx : float; qy : float; qz : float; qw : float }.
Record Pose := { position : Point; orientation : Quaternion }.
Record ColorRGBA := { r : float; g : float; b : float; a : float }.

Definition Point0 : Point := {| x := 0; y := 0; z := 0 |}.
Definition Vector3_0 : Vector3 := {| vx := 0; vy := 0; vz := 0 |}.
Definition Quaternion0 : Quaternion := {| qx := 0; qy := 0; qz := 0; qw := 0 |}.
Definition Pose0 : Pose := {| position := Point0; orientation := Quaternion0 |}.
Definition ColorRGBA0 : ColorRGBA := {| r := 0; g := 0; b := 0; a := 0 |}.

(** A [Vector3] stored in a [Point[]] field is read through its [x], [y]
    and [z] attributes when the message is serialised. *)
Definition Point_of_Vector3 (v : Vector3) : Point :=
  {| x := vx v; y := vy v; z := vz v |}.

(** [visualization_msgs/Marker], the fields the program touches.  [mtype]
    and [action] hold the message's integer constants. *)
Record Marker := {
  header : Header;
  ns : string;
  id : Z;
  mtype : Z;
  action : Z;
  pose : Pose;
  scale : Vector3;
  color : ColorRGBA;
  points : list Point
}.

Definition LINE_LIST : Z := 5.
Definition ADD : Z := 0.

(** [Marker()]: every field at its default. *)
Definition Marker0 : Marker :=
  {| header := Header0; ns := ""; id := 0; mtype := 0; action := 0;
     pose := Pose0; scale := Vector3_0; color := ColorRGBA0; points := [] |}.

(** [geometry_msgs/Transform] and [TransformStamped]. *)
Record Transform := { translation : Vector3; rotation : Quaternion }.
Record TransformStamped := {
  ts_header : Header;
  child_frame_id : string;
  transform : Transform
}.

(** The response of the [Tf2Transform] service: the callbacks read its
    [transform] attribute, a [TransformStamped]. *)
Record Tf2TransformResponse := { resp_transform : TransformStamped }.

(** [RegionOfInterestWithCovarianceStamped], the fields the program reads:
    the pixel rectangle.  Python's arithmetic converts each of them to
    float64 before it is used; the record holds the converted values. *)
Record RegionOfInterestWithCovarianceStamped := {
  roi_x : float;
  roi_y : float;
  roi_w : float;
  roi_h : float
}.

(** [PointWithCovarianceStamped]: [KalmanVizHandler.callback] reads none of
    its fields. *)
Record PointWithCovarianceStamped := { est_point : Point }.

(** ** Exceptions *)

(** The exception classes in play.  The last two derive from
    [BaseException] only; all others are subclasses of [Exception]. *)
Inductive exn :=
| ServiceException (msg : string)
| ROSSerializationException (msg : string)
| ROSInterruptException (msg : string)
| TransportException (msg : string)
| TypeError (msg : string)
| ValueError (msg : string)
| OverflowError (msg : string)
| ZeroDivisionError (msg : string)
| KeyboardInterrupt
| SystemExit.

(** [isinstance(e, Exception)]. *)
Definition isinstance_Exception (e : exn) : bool :=
  match e with
  | KeyboardInterrupt | SystemExit => false
  | _ => true
  end.

(** ** The world and the monad *)

(** What the program acts on: the clock ([clock] gives the successive
    readings, [ticks] counts those taken); the services, by name, each
    answering its [n]-th call with a response or an exception ([calls]
    counts the calls made); the messages handed to [publish] so far, as
    the program built them, oldest first, each with its topic; the lines
    written to the log. *)
Record World := {
  clock : nat -> Time;
  ticks : nat;
  services : string -> nat -> string -> string -> Time -> Duration ->
             exn + Tf2TransformResponse;
  calls : nat;
  published : list (string * Marker);
  logged : list string
}.

Inductive outcome (S A : Type) :=
| Returned (v : A) (s : S)
| Raised (e : exn) (s : S).
Arguments Returned {S A} v s.
Arguments Raised {S A} e s.

(** A computation over a state [S] returns a value or raises. *)
Definition M (S A : Type) : Type := S -> outcome S A.

Definition ret {S A} (v : A) : M S A := fun s => Returned v s.

Definition bind {S A B} (m : M S A) (k : A -> M S B) : M S B :=
  fun s => match m s with
           | Returned v s' => k v s'
           | Raised e s' => Raised e s'
           end.

Definition raise {S A} (e : exn) : M S A := fun s => Raised e s.

(** [try: m  except Exception: h]. *)
Definition try_except_Exception {S A} (m : M S A) (h : M S A) : M S A :=
  fun s => match m s with
           | Returned v s' => Returned v s'
           | Raised e s' => if isinstance_Exception e then h s' else Raised e s'
           end.

Declare Scope monad_scope.
Delimit Scope monad_scope with monad.
Notation "x <- m ;; k" := (bind m (fun x => k))
  (at level 61, m at next level, right associativity) : monad_scope.
Notation "m ;; k" := (bind m (fun _ => k))
  (at level 61, right associativity) : monad_scope.
Local Open Scope monad_scope.

(** The state an outcome leaves behind. *)
Definition state_of {S A} (o : outcome S A) : S :=
  match o with Returned _ s => s | Raised _ s => s end.

(** A computation on the world alone, run by a method of an object. *)
Definition lift {O A} (m : M World A) : M (O * World) A :=
  fun s => match m (snd s) with
           | Returned v w => Returned v (fst s, w)
           | Raised e w => Raised e (fst s, w)
           end.

(** Reading [self] and assigning to it. *)
Definition get_self {O} : M (O * World) O := fun s => Returned (fst s) s.
Definition put_self {O} (o : O) : M (O * World) unit :=
  fun s => Returned tt (o, snd s).

(** [for x in l: body(x)]. *)
Fixpoint for_each {S A} (l : list A) (body : A -> M S unit) : M S unit :=
  match l with
  | [] => ret tt
  | v :: l' => body v ;; for_each l' body
  end.

(** [rospy.get_rostime()] and [rospy.Time.now()]: the next reading of the
    clock. *)
Definition get_rostime : M World Time :=
  fun w => Returned (clock w (ticks w))
             {| clock := clock w; ticks := S (ticks w);
                services := services w; calls := calls w;
                published := published w; logged := logged w |}.
Definition Time_now : M World Time := get_rostime.

(** [rospy.Publisher]: its topic.  [publish] adds the message it is given
    to those handed over for the topic. *)
Record Publisher := { topic : string }.

Definition publish (p : Publisher) (m : Marker) : M World unit :=
  fun w => Returned tt
             {| clock := clock w; ticks := ticks w;
                services := services w; calls := calls w;
                published := published w ++ [(topic p, m)];
                logged := logged w |}.

(** What rospy's publisher does to a message on its way out:
    [rospy.msg.serialize_message] writes into the [seq] of the message's
    header the count of the messages the publisher has sent on the topic,
    this one included. *)
Definition serialize_message (count : Z) (m : Marker) : Marker :=
  {| header := {| seq := count; stamp := stamp (header m);
                  header_frame_id := header_frame_id (header m) |};
     ns := ns m; id := id m; mtype := mtype m; action := action m;
     pose := pose m; scale := scale m; color := color m;
     points := points m |}.

(** What the subscribers of the topics receive of the messages handed to
    [publish], when each topic has had a subscriber all along: every
    message with its place, from 1, among the messages of its topic as
    [header.seq] (the publishers of one topic in a node share the count).
    [sent] gives the count of each topic so far. *)
Fixpoint serialised_from (sent : string -> Z) (l : list (string * Marker))
    : list (string * Marker) :=
  match l with
  | [] => []
  | tm :: l' =>
    let count := sent (fst tm) + 1 in
    (fst tm, serialize_message count (snd tm))
    :: serialised_from
         (fun t => if String.eqb t (fst tm) then count else sent t) l'
  end.

Definition serialised (l : list (string * Marker)) : list (string * Marker) :=
  serialised_from (fun _ => 0) l.

(** [rospy.ServiceProxy]: the name of its service.  A call asks the
    service, which answers or raises. *)
Record ServiceProxy := { service : string }.

Definition call (p : ServiceProxy) (src tgt : string) (t : Time)
    (d : Duration) : M World Tf2TransformResponse :=
  fun w =>
    let w' := {| clock := clock w; ticks := ticks w;
                 services := services w; calls := S (calls w);
                 published := published w; logged := logged w |} in
    match services w (service p) (calls w) src tgt t d with
    | inl e => Raised e w'
    | inr resp => Returned resp w'
    end.

(** ** Python's float operations that can raise *)

Local Open Scope float_scope.

(** [a / b] on floats. *)
Definition truediv {S} (a b : float) : M S float :=
  if b =? 0 then raise (ZeroDivisionError "float division by zero")
  else ret (a / b).

(** [v ** 2] on a float: NaN and the infinities go through; otherwise the
    C library's [pow(v, 2.0)], taken correctly rounded, and an
    [OverflowError] when it leaves the finite range. *)
Definition float_pow2 {S} (v : float) : M S float :=
  if is_nan v then ret v
  else if is_infinity v then ret (abs v)
  else let ix := v * v in
       if is_infinity ix
       then raise (OverflowError "Numerical result out of range")
       else ret ix.

(** [math.sqrt]. *)
Definition math_sqrt {S} (v : float) : M S float :=
  let res := sqrt v in
  if is_nan res && negb (is_nan v)
  then raise (ValueError "math domain error")
  else ret res.

(** numpy arrays of two float64: the element-wise operations. *)
Definition np_add (u v : float * float) : float * float :=
  (fst u + fst v, snd u + snd v).
Definition np_div (u v : float * float) : float * float :=
  (fst u / fst v, snd u / snd v).
Definition np_mul (u v : float * float) : float * float :=
  (fst u * fst v, snd u * snd v).
Definition np_scale (u : float * float) (k : float) : float * float :=
  (fst u * k, snd u * k).

(** ** HeaderCalc *)

Module HeaderCalc.

Record t := { frame_id : string; _seq : Z }.

Definition __init__ (frame_id : string) : t :=
  {| frame_id := frame_id; _seq := 0 |}.

Definition get_header : M (t * World) Header :=
  now <- lift get_rostime ;;
  self <- get_self ;;
  let fake_header :=
    {| seq := _seq self; stamp := now; header_frame_id := frame_id self |} in
  (if (_seq self >=? 4294967295)%Z
   then put_self {| frame_id := frame_id self; _seq := 0 |}
   else put_self {| frame_id := frame_id self; _seq := (_seq self + 1)%Z |}) ;;
  ret fake_header.

(** The object and the world after [n] calls. *)
Definition after (n : N) (s : t * World) : t * World :=
  N.iter n (fun s => state_of (get_header s)) s.

(** What the [n]-th call ([n >= 1]) does. *)
Definition nth_call (n : N) (s : t * World) : outcome (t * World) Header :=
  get_header (after (N.pred n) s).

End HeaderCalc.

(** ** CamVizHandler *)

Module CamVizHandler.

(** The object: the class attributes, read through [self], and the
    attributes [__init__] sets.  [CAMERA_RES] holds the integers 640 and
    360 as the float64 numbers every use turns them into.  [_gen], a
    random generator no method reads, is left out. *)
Record t := {
  CAMERA_RES : float * float;
  CAMERA_SENSOR : float * float;
  CAMERA_FOCAL : float;
  tf_get : ServiceProxy;
  p_out : Publisher;
  _header : HeaderCalc.t
}.

(** The class attributes as the class body computes them. *)
Definition class_CAMERA_RES : float * float := (640, 360).
Definition class_CAMERA_SENSOR : float * float :=
  (5449 * (640 / 672) * 1e-6, 3072 * (360 / 380) * 1e-6).
Definition class_CAMERA_FOCAL : float := 11e-3.

Definition __init__ : t :=
  {| CAMERA_RES := class_CAMERA_RES;
     CAMERA_SENSOR := class_CAMERA_SENSOR;
     CAMERA_FOCAL := class_CAMERA_FOCAL;
     tf_get := {| service := "Tf2Transform" |};
     p_out := {| topic := "visualization_marker" |};
     _header := HeaderCalc.__init__ "fake_grabber" |}.

Section Libm.

(** [math.tan] and [math.atan], the C library's.  [math.atan] returns on
    every float; [math.tan] raises on an infinity only, and its arguments
    here, arc tangents doubled and halved, are none. *)
Variables tan atan : float -> float.

Definition make_cam_fov_marker (z_extrap : float)
    (cam_msg : RegionOfInterestWithCovarianceStamped)
    : M (t * World) (list Marker) :=
  self <- get_self ;;
  (* draw the complete camera FOV *)
  ratio_across <- truediv (fst (CAMERA_SENSOR self)) (2 * CAMERA_FOCAL self) ;;
  let CAM_FOV_ACROSS := 2 * atan ratio_across in
  ratio_updown <- truediv (snd (CAMERA_SENSOR self)) (2 * CAMERA_FOCAL self) ;;
  let CAM_FOV_UPDOWN := 2 * atan ratio_updown in
  let X_AT_Z_EXTRAP := z_extrap * tan (CAM_FOV_ACROSS / 2) in
  let Y_AT_Z_EXTRAP := z_extrap * tan (CAM_FOV_UPDOWN / 2) in
  cam_stamp <- lift Time_now ;;
  let cam_mark :=
    {| header := {| seq := seq Header0; stamp := cam_stamp;
                    header_frame_id := "fake_grabber" |};
       ns := "applevision_cam_fov";
       id := 0;
       mtype := LINE_LIST;
       action := ADD;
       pose := {| position := Point0;
                  orientation := {| qx := 0; qy := 0; qz := 0; qw := 1 |} |};
       scale := {| vx := 0.01; vy := 0; vz := 0 |};
       color := {| r := 1; g := 0; b := 0; a := 0.5 |};
       points := [
         (* draw cone *)
         Build_Point 0 0 0; Build_Point X_AT_Z_EXTRAP Y_AT_Z_EXTRAP z_extrap;
         Build_Point 0 0 0; Build_Point (- X_AT_Z_EXTRAP) Y_AT_Z_EXTRAP z_extrap;
         Build_Point 0 0 0; Build_Point (- X_AT_Z_EXTRAP) (- Y_AT_Z_EXTRAP) z_extrap;
         Build_Point 0 0 0; Build_Point X_AT_Z_EXTRAP (- Y_AT_Z_EXTRAP) z_extrap;
         (* draw box at end of cone *)
         Build_Point X_AT_Z_EXTRAP Y_AT_Z_EXTRAP z_extrap;
         Build_Point (- X_AT_Z_EXTRAP) Y_AT_Z_EXTRAP z_extrap;
         Build_Point (- X_AT_Z_EXTRAP) Y_AT_Z_EXTRAP z_extrap;
         Build_Point (- X_AT_Z_EXTRAP) (- Y_AT_Z_EXTRAP) z_extrap;
         Build_Point (- X_AT_Z_EXTRAP) (- Y_AT_Z_EXTRAP) z_extrap;
         Build_Point X_AT_Z_EXTRAP (- Y_AT_Z_EXTRAP) z_extrap;
         Build_Point X_AT_Z_EXTRAP (- Y_AT_Z_EXTRAP) z_extrap;
         Build_Point X_AT_Z_EXTRAP Y_AT_Z_EXTRAP z_extrap
       ] |} in
  (* draw the bounding box *)
  box_stamp <- lift Time_now ;;
  let top_left :=
    (roi_x cam_msg - fst (CAMERA_RES self) / 2,
     roi_y cam_msg - snd (CAMERA_RES self) / 2) in
  let bottom_right := np_add top_left (roi_w cam_msg, roi_h cam_msg) in
  let top_left_m :=
    np_scale (np_mul (np_div top_left (CAMERA_RES self))
                     (X_AT_Z_EXTRAP, Y_AT_Z_EXTRAP)) 2 in
  let bottom_right_m :=
    np_scale (np_mul (np_div bottom_right (CAMERA_RES self))
                     (X_AT_Z_EXTRAP, Y_AT_Z_EXTRAP)) 2 in
  let box_mark :=
    {| header := {| seq := seq Header0; stamp := box_stamp;
                    header_frame_id := "fake_grabber_cam" |};
       ns := "applevision_cam_box";
       id := 0;
       mtype := LINE_LIST;
       action := ADD;
       pose := {| position := {| x := 0; y := 0; z := z_extrap |};
                  orientation := {| qx := 0; qy := 0; qz := 0; qw := 1 |} |};
       scale := {| vx := 0.005; vy := 0; vz := 0 |};
       color := {| r := 0; g := 1; b := 0; a := 0.5 |};
       points := [
         Build_Point (fst top_left_m) (snd top_left_m) 0;
         Build_Point (fst bottom_right_m) (snd top_left_m) 0;
         Build_Point (fst bottom_right_m) (snd top_left_m) 0;
         Build_Point (fst bottom_right_m) (snd bottom_right_m) 0;
         Build_Point (fst bottom_right_m) (snd bottom_right_m) 0;
         Build_Point (fst top_left_m) (snd bottom_right_m) 0;
         Build_Point (fst top_left_m) (snd bottom_right_m) 0;
         Build_Point (fst top_left_m) (snd top_left_m) 0
       ] |} in
  ret [box_mark; cam_mark].

Definition callback (cam : RegionOfInterestWithCovarianceStamped)
    : M (t * World) unit :=
  self <- get_self ;;
  (* draw the cameras FOV and bounding box *)
  dist_to_apple <- lift (call (tf_get self) "fake_apple" "fake_grabber" Time0 Time0) ;;
  markers <- make_cam_fov_marker
               (vz (translation (transform (resp_transform dist_to_apple)))) cam ;;
  for_each markers (fun marker =>
    self <- get_self ;;
    lift (publish (p_out self) marker)).

End Libm.

End CamVizHandler.

(** ** KalmanVizHandler *)

Module KalmanVizHandler.

Record t := {
  tf_get : ServiceProxy;
  p_out : Publisher
}.

Definition __init__ : t :=
  {| tf_get := {| service := "Tf2Transform" |};
     p_out := {| topic := "visualization_marker" |} |}.

Definition callback (res : PointWithCovarianceStamped) : M (t * World) unit :=
  self <- get_self ;;
  answer <- try_except_Exception
              (dist_to_apple <- lift (call (tf_get self) "apple" "fake_grabber"
                                        Time0 Time0) ;;
               ret (Some dist_to_apple))
              (ret None) ;;
  match answer with
  | None => ret tt
  | Some dist_to_apple =>
    let trans := resp_transform dist_to_apple in
    x2 <- float_pow2 (vx (translation (transform trans))) ;;
    y2 <- float_pow2 (vy (translation (transform trans))) ;;
    z2 <- float_pow2 (vz (translation (transform trans))) ;;
    mag <- math_sqrt (x2 + y2 + z2) ;;
    (* draw an arrow from the grabber to where we think the apple is *)
    arrow_stamp <- lift Time_now ;;
    let arrow_mark :=
      {| header := {| seq := seq Header0; stamp := arrow_stamp;
                      header_frame_id := "fake_grabber" |};
         ns := "applevision_arrow";
         id := 0;
         mtype := LINE_LIST;
         action := ADD;
         pose := {| position := Point0;
                    orientation := {| qx := 0; qy := 0; qz := 0; qw := 1 |} |};
         scale := {| vx := 0.005; vy := 0; vz := 0 |};
         color := {| r := 0; g := 1; b := 0; a := 0.5 |};
         points := [
           Build_Point 0 0 0; Point_of_Vector3 (translation (transform trans))
         ] |} in
    lift (publish (p_out self) arrow_mark)
  end.

End KalmanVizHandler.

(** ** main: the node *)

Module Node.

(** What the two subscriptions deliver. *)
Inductive message :=
| apple_camera (cam : RegionOfInterestWithCovarianceStamped)
| est_apple_pos (res : PointWithCovarianceStamped).

Record t := {
  main_proc : CamVizHandler.t;
  kal_proc : KalmanVizHandler.t;
  world : World
}.

(** [main] up to [rospy.spin()]: the two handlers are constructed. *)
Definition start (w : World) : t :=
  {| main_proc := CamVizHandler.__init__;
     kal_proc := KalmanVizHandler.__init__;
     world := w |}.

Section Libm.

Variables tan atan : float -> float.

(** One message goes to the callback subscribed to its topic.  An
    exception that escapes the callback ends that callback only: the node
    goes on from the state it left. *)
Definition deliver (p : t) (m : message) : t :=
  match m with
  | apple_camera cam =>
    let s := state_of (CamVizHandler.callback tan atan cam (main_proc p, world p)) in
    {| main_proc := fst s; kal_proc := kal_proc p; world := snd s |}
  | est_apple_pos res =>
    let s := state_of (KalmanVizHandler.callback res (kal_proc p, world p)) in
    {| main_proc := main_proc p; kal_proc := fst s; world := snd s |}
  end.

(** [rospy.spin()] over the messages that arrive. *)
Definition spin (p : t) (msgs : list message) : t :=
  fold_left deliver msgs p.

End Libm.

End Node.

(** ** States and answers the statements name *)

(** The counter of [HeaderCalc] after one call, from the counter before
    it. *)
Definition next_seq (n : Z) : Z :=
  if (n >=? 4294967295)%Z then 0%Z else (n + 1)%Z.

(** The world after one reading of the clock. *)
Definition tick (w : World) : World :=
  {| clock := clock w; ticks := Datatypes.S (ticks w);
     services := services w; calls := calls w;
     published := published w; logged := logged w |}.

(** The world after one call of a service. *)
Definition called (w : World) : World :=
  {| clock := clock w; ticks := ticks w;
     services := services w; calls := Datatypes.S (calls w);
     published := published w; logged := logged w |}.

(** What the transform service answers to the next call. *)
Definition next_answer (w : World) (src tgt : string)
    : exn + Tf2TransformResponse :=
  services w "Tf2Transform" (calls w) src tgt Time0 Time0.

(** The value a computation returns, if it returns. *)
Definition value_of {S A} (o : outcome S A) : option A :=
  match o with Returned v _ => Some v | Raised _ _ => None end.

(** ** The drawing primitives, as the specification words them *)

(** A [LINE_LIST] marker draws one segment for each successive pair of
    its points. *)
Fixpoint segments (l : list Point) : list (Point * Point) :=
  match l with
  | p :: q :: l' => (p, q) :: segments l'
  | _ => []
  end.

(** The edges from an apex to each of some corners. *)
Definition apex_edges (apex : Point) (corners : list Point)
    : list (Point * Point) :=
  map (fun c => (apex, c)) corners.

(** The closed outline through some corners, in order. *)
Definition outline (corners : list Point) : list (Point * Point) :=
  match corners with
  | [] => []
  | c :: cs => combine corners (cs ++ [c])
  end.

(** The identity under which a viewer replaces a marker. *)
Definition identity (m : Marker) : string * Z := (ns m, id m).

Module Spec.

Section Libm.

Variables tan atan : float -> float.

(** Resolution, sensor size in metres and focal length in metres. *)
Definition R : float * float := (640, 360).
Definition S : float * float :=
  (5449 * (640 / 672) * 1e-6, 3072 * (360 / 380) * 1e-6).
Definition F : float := 11e-3.

Definition hFOV : float := 2 * atan (fst S / (2 * F)).
Definition vFOV : float := 2 * atan (snd S / (2 * F)).

(** The half-extents at distance [D]. *)
Definition X (D : float) : float := D * tan (hFOV / 2).
Definition Y (D : float) : float := D * tan (vFOV / 2).

(** The four corners of the far plane. *)
Definition cone_corners (D : float) : list Point :=
  [ Build_Point (X D) (Y D) D;
    Build_Point (- X D) (Y D) D;
    Build_Point (- X D) (- Y D) D;
    Build_Point (X D) (- Y D) D ].

(** The cone: apex to each corner, then the rectangle through them. *)
Definition cone (D : float) : list (Point * Point) :=
  apex_edges Point0 (cone_corners D) ++ outline (cone_corners D).

(** The detection rectangle relative to the image centre, in pixels. *)
Definition top_left (det : RegionOfInterestWithCovarianceStamped)
    : float * float :=
  (roi_x det - fst R / 2, roi_y det - snd R / 2).
Definition bottom_right (det : RegionOfInterestWithCovarianceStamped)
    : float * float :=
  (fst (top_left det) + roi_w det, snd (top_left det) + roi_h det).

(** [point_m = point_px / R * (X,Y) * 2]. *)
Definition to_metres (D : float) (point_px : float * float) : float * float :=
  (fst point_px / fst R * X D * 2, snd point_px / snd R * Y D * 2).

(** The corners of the bounding box, in its own frame. *)
Definition box_corners (D : float)
    (det : RegionOfInterestWithCovarianceStamped) : list Point :=
  let tl := to_metres D (top_left det) in
  let br := to_metres D (bottom_right det) in
  [ Build_Point (fst tl) (snd tl) 0;
    Build_Point (fst br) (snd tl) 0;
    Build_Point (fst br) (snd br) 0;
    Build_Point (fst tl) (snd br) 0 ].

Definition box (D : float) (det : RegionOfInterestWithCovarianceStamped)
    : list (Point * Point) :=
  outline (box_corners D det).

End Libm.

End Spec.

(** ** Predicates of the statements, and inputs for the examples *)

(** [v] survives halving: it is NaN, a zero, or of magnitude at least
    2^-1021 (the infinities included), so that [0.5 * v] loses no bit. *)
Definition halves_exactly (v : float) : bool :=
  is_nan v || is_zero v || (0x1p-1021 <=? abs v).






(** The detection that covers the whole frame. *)
Definition full_frame : RegionOfInterestWithCovarianceStamped :=
  {| roi_x := 0; roi_y := 0; roi_w := 640; roi_h := 360 |}.

(** A handler as the class makes it, but for a sensor of size zero: its
    field of view is zero. *)
Definition zero_fov_handler : CamVizHandler.t :=
  {| CamVizHandler.CAMERA_RES := CamVizHandler.class_CAMERA_RES;
     CamVizHandler.CAMERA_SENSOR := (0, 0);
     CamVizHandler.CAMERA_FOCAL := CamVizHandler.class_CAMERA_FOCAL;
     CamVizHandler.tf_get := {| service := "Tf2Transform" |};
     CamVizHandler.p_out := {| topic := "visualization_marker" |};
     CamVizHandler._header := HeaderCalc.__init__ "fake_grabber" |}.

(** A C library for the examples: the correctly rounded arc tangent and
    tangent at the two arguments each that the class constants lead to,
    and the argument itself elsewhere (which is exact at zero). *)
Definition sample_atan (v : float) : float :=
  if v =? 0x1.e318f50cfd07ap-3 then 0x1.da6cc7e91222ap-3
  else if v =? 0x1.0eec87804c82dp-3 then 0x1.0d5c25ecf2ad8p-3
  else v.
Definition sample_tan (v : float) : float :=
  if v =? 0x1.da6cc7e91222ap-3 then 0x1.e318f50cfd07ap-3
  else if v =? 0x1.0d5c25ecf2ad8p-3 then 0x1.0eec87804c82dp-3
  else v.

(** A world in which nothing has happened yet and the transform service
    gives every call the same answer. *)
Definition fresh_world (answer : exn + Tf2TransformResponse) : World :=
  {| clock := fun _ => Time0; ticks := 0;
     services := fun _ _ _ _ _ _ => answer;
     calls := 0; published := []; logged := [] |}.

(** The response that carries a given translation. *)
Definition response_at (tx ty tz : float) : Tf2TransformResponse :=
  {| resp_transform :=
       {| ts_header := Header0; child_frame_id := "fake_grabber";
          transform := {| translation := {| vx := tx; vy := ty; vz := tz |};
                          rotation := Quaternion0 |} |} |}.

(** The two points a segment joins. *)
Definition ends (sg : Point * Point) : list Point := [fst sg; snd sg].

(** The bounding box of the whole frame falls on the far plane of the
    cone: its corners are (-X,-Y), (X,-Y), (X,Y) and (-X,Y) in a frame
    moved by [D] along the axis, where the cone has its corners
    (+-X, +-Y, D). *)
Definition full_frame_coincides (tan atan : float -> float) (w : World)
    (D : float) : Prop :=
  let X := Spec.X tan atan D in
  let Y := Spec.Y tan atan D in
  exists box cone s',
    CamVizHandler.make_cam_fov_marker tan atan D full_frame
      (CamVizHandler.__init__, w) = Returned [box; cone] s'
    /\ segments (points box)
       = outline [ Build_Point (- X) (- Y) 0; Build_Point X (- Y) 0;
                   Build_Point X Y 0; Build_Point (- X) Y 0 ]
    /\ z (position (pose box)) = D
    /\ segments (points cone)
       = (apex_edges Point0
            [ Build_Point X Y D; Build_Point (- X) Y D;
              Build_Point (- X) (- Y) D; Build_Point X (- Y) D ]
          ++ outline
            [ Build_Point X Y D; Build_Point (- X) Y D;
              Build_Point (- X) (- Y) D; Build_Point X (- Y) D ])%list.

(** [v ** 2] raises: [v] is finite and its square is not. *)
Definition pow2_overflows (v : float) : bool :=
  negb (is_nan v) && negb (is_infinity v) && is_infinity (v * v).

(** The square of a component of the translation overflows. *)
Definition magnitude_overflows (t : Vector3) : bool :=
  pow2_overflows (vx t) || pow2_overflows (vy t) || pow2_overflows (vz t).

(** What [v ** 2] returns when it returns. *)
Definition pow2_value (v : float) : float :=
  if is_nan v then v else if is_infinity v then abs v else v * v.

(** A float that is not below zero: NaN, a zero, or positive. *)
Definition not_negative (u : spec_float) : Prop :=
  match u with
  | S754_infinity true | S754_finite true _ _ => False
  | _ => True
  end.

(** A computation leaves a part [f] of the state as it found it, whether
    it returns or raises. *)
Definition preserves {S A X} (f : S -> X) (m : M S A) : Prop :=
  forall s, f (state_of (m s)) = f s.

(** The object a method is called on, and the log, as parts of the
    state. *)
Definition self_of {O} (s : O * World) : O := fst s.
Definition log_of {O} (s : O * World) : list string := logged (snd s).

(** The identities of the markers of the program. *)
Definition cam_fov_identity : string * Z := ("applevision_cam_fov", 0%Z).
Definition cam_box_identity : string * Z := ("applevision_cam_box", 0%Z).
Definition arrow_identity : string * Z := ("applevision_arrow", 0%Z).
Definition identities : list (string * Z) :=
  [cam_box_identity; cam_fov_identity; arrow_identity].

(** A publication of the program: for the drawing topic, under one of the
    identities, handed over with the header's [seq] at the message's
    default. *)
Definition own_publication (tm : string * Marker) : Prop :=
  fst tm = "visualization_marker"
  /\ In (identity (snd tm)) identities
  /\ seq (header (snd tm)) = seq Header0.

(** The node, started in a world where nothing is published, comes to
    publish on the drawing topic a marker of identity [i]. *)
Definition emits (tan atan : float -> float) (i : string * Z) : Prop :=
  exists w msgs m,
    published w = []
    /\ In ("visualization_marker", m)
          (published (Node.world (Node.spin tan atan (Node.start w) msgs)))
    /\ identity m = i.

(** ** Further notions: the rest of the program's behaviour *)

(** The exception a computation raises, if it raises. *)
Definition raised_of {S A} (o : outcome S A) : option exn :=
  match o with Returned _ _ => None | Raised e _ => Some e end.

(** What a computation adds to the topics. *)
Definition newly_published {O A} (s : O * World) (o : outcome (O * World) A)
    : list (string * Marker) :=
  skipn (List.length (published (snd s))) (published (snd (state_of o))).

(** A marker a viewer can draw as the program means it: a line list to
    add, with an even number of points (2, 8 or 16), the identity rotation,
    half transparent, in one of the two frames of the grabber. *)
Definition drawable (m : Marker) : Prop :=
  mtype m = LINE_LIST
  /\ action m = ADD
  /\ id m = 0%Z
  /\ orientation (pose m) = {| qx := 0; qy := 0; qz := 0; qw := 1 |}
  /\ a (color m) = 0.5
  /\ In (List.length (points m)) [2%nat; 8%nat; 16%nat]
  /\ In (header_frame_id (header m)) ["fake_grabber"; "fake_grabber_cam"].

(** The messages of each subscription among those delivered. *)
Definition camera_count (msgs : list Node.message) : nat :=
  List.length (filter (fun m => match m with
                                | Node.apple_camera _ => true
                                | Node.est_apple_pos _ => false
                                end) msgs).
Definition estimate_count (msgs : list Node.message) : nat :=
  List.length (filter (fun m => match m with
                                | Node.apple_camera _ => false
                                | Node.est_apple_pos _ => true
                                end) msgs).

(** A component of a translation whose square does not overflow for sure:
    NaN, an infinity, or of magnitude below 2^511. *)
Definition safe_component (v : float) : bool :=
  is_nan v || is_infinity v || (abs v <=? 0x1.fffffffffffffp510).

(** A component of a translation whose square overflows for sure: finite
    and of magnitude at least 2^512. *)
Definition large_component (v : float) : bool :=
  is_finite v && (0x1p512 <=? abs v).

(** A detection of no width and no height. *)
Definition zero_size (det : RegionOfInterestWithCovarianceStamped) : bool :=
  is_zero (roi_w det) && is_zero (roi_h det).

(** The reflection of a point through the origin. *)
Definition reflect (p : Point) : Point :=
  {| x := - x p; y := - y p; z := - z p |}.

(** The reflection of a point through the axis. *)
Definition reflect_xy (p : Point) : Point :=
  {| x := - x p; y := - y p; z := z p |}.

(** Two messages that differ at most in what an estimate holds. *)
Definition same_but_estimate (m m' : Node.message) : Prop :=
  match m, m' with
  | Node.apple_camera cam, Node.apple_camera cam' => cam = cam'
  | Node.est_apple_pos _, Node.est_apple_pos _ => True
  | _, _ => False
  end.

Local Close Scope float_scope.

(** * Properties *)

(** ** HeaderCalc: the sequence counter *)

Section HeaderCalcFacts.

Import HeaderCalc.

Lemma get_header_run (self : HeaderCalc.t) (w : World) :
  exists w',
    get_header (self, w) =
    Returned {| seq := _seq self; stamp := clock w (ticks w);
                header_frame_id := frame_id self |}
             ({| frame_id := frame_id self; _seq := next_seq (_seq self) |}, w')
    /\ published w' = published w /\ logged w' = logged w.
Proof.
  unfold get_header, bind, lift, get_rostime, get_self, put_self, ret, next_seq.
  cbn [fst snd].
  destruct (_seq self >=? 4294967295)%Z; cbn [fst snd];
    eexists; repeat split; reflexivity.
Qed.

Lemma get_header_seq_after (s : HeaderCalc.t * World) :
  _seq (fst (state_of (get_header s))) = next_seq (_seq (fst s)).
Proof.
  destruct s as [self w].
  destruct (get_header_run self w) as (w' & E & _).
  rewrite E. reflexivity.
Qed.

Lemma after_succ (n : N) (s : HeaderCalc.t * World) :
  after (N.succ n) s = state_of (get_header (after n s)).
Proof. unfold after. now rewrite N.iter_succ. Qed.

Lemma next_seq_mod (k : Z) :
  (0 <= k)%Z ->
  next_seq (k mod 4294967296) = ((k + 1) mod 4294967296)%Z.
Proof.
  intros Hk. unfold next_seq.
  pose proof (Z.mod_pos_bound k 4294967296 ltac:(lia)) as Hb.
  destruct (Z.geb_spec (k mod 4294967296) 4294967295) as [Hge | Hlt].
  - assert (Hm : (k mod 4294967296 = 4294967295)%Z) by lia.
    rewrite <- (Zplus_mod_idemp_l k 1), Hm. reflexivity.
  - rewrite <- (Zplus_mod_idemp_l k 1).
    rewrite (Z.mod_small (k mod 4294967296 + 1)); lia.
Qed.

(** After [n] calls on a fresh object the counter is [n mod 2^32]. *)
Lemma after_seq (n : N) (f : string) (w : World) :
  _seq (fst (after n (__init__ f, w))) = (Z.of_N n mod 4294967296)%Z.
Proof.
  induction n as [| n IH] using N.peano_ind.
  - reflexivity.
  - rewrite after_succ, get_header_seq_after, IH, N2Z.inj_succ.
    unfold Z.succ. apply next_seq_mod. lia.
Qed.

(** C6: the counter starts at 0; every call returns; a call adds 1 to the
    counter unless the counter is 4294967295, and then sets it to 0; after
    4294967296 calls on a fresh object the counter is 0 again; and it never
    exceeds 4294967295. *)
Theorem C6_sequence_counter (f : string) (w : World) :
  _seq (__init__ f) = 0%Z
  /\ (forall s, exists h s', get_header s = Returned h s')
  /\ (forall n,
        let before := _seq (fst (after n (__init__ f, w))) in
        let after1 := _seq (fst (after (N.succ n) (__init__ f, w))) in
        after1 = if (before =? 4294967295)%Z then 0%Z else (before + 1)%Z)
  /\ _seq (fst (after 4294967296 (__init__ f, w))) = 0%Z
  /\ (forall n, (0 <= _seq (fst (after n (__init__ f, w))) <= 4294967295)%Z).
Proof.
  assert (Hbound : forall n,
             (0 <= _seq (fst (after n (__init__ f, w))) <= 4294967295)%Z).
  { intros n. rewrite after_seq.
    pose proof (Z.mod_pos_bound (Z.of_N n) 4294967296 ltac:(lia)). lia. }
  split; [reflexivity |].
  split; [| split; [| split]].
  - intros [self w0]. destruct (get_header_run self w0) as (w' & E & _).
    rewrite E. eauto.
  - intros n. cbv zeta.
    rewrite after_succ, get_header_seq_after. unfold next_seq.
    specialize (Hbound n).
    destruct (Z.geb_spec (_seq (fst (after n (__init__ f, w)))) 4294967295),
             (Z.eqb_spec (_seq (fst (after n (__init__ f, w)))) 4294967295);
      lia.
  - rewrite after_seq. reflexivity.
  - exact Hbound.
Qed.

(** C9: the header of the [n]-th call, [n >= 1], carries the counter as it
    was before that call, which is [(n - 1) mod 4294967296]; the update of
    the counter shows in the state after the call only. *)
Theorem C9_header_seq_is_counter_before (n : N) (f : string) (w : World) :
  (1 <= n)%N ->
  exists h s',
    nth_call n (__init__ f, w) = Returned h s'
    /\ seq h = _seq (fst (after (N.pred n) (__init__ f, w)))
    /\ seq h = ((Z.of_N n - 1) mod 4294967296)%Z
    /\ _seq (fst s') = next_seq (seq h).
Proof.
  intros Hn. unfold nth_call.
  pose proof (after_seq (N.pred n) f w) as Hseq.
  destruct (after (N.pred n) (__init__ f, w)) as [self w0] eqn:E.
  cbn [fst] in Hseq.
  destruct (get_header_run self w0) as (w' & Hrun & _).
  rewrite Hrun. eexists. eexists. split; [reflexivity |].
  cbn [seq fst _seq].
  split; [reflexivity |]. split; [| reflexivity].
  rewrite Hseq. f_equal. lia.
Qed.

(** C9 at the call after the counter has wrapped: call 4294967297 on a
    fresh object returns a header of seq 0. *)
Lemma C9_witness :
  (1 <= 4294967297)%N /\
  exists h s',
    nth_call 4294967297 (__init__ "fake_grabber",
                         fresh_world (inl KeyboardInterrupt))
    = Returned h s'
    /\ seq h = 0%Z.
Proof.
  split; [lia |].
  destruct (C9_header_seq_is_counter_before 4294967297 "fake_grabber"
              (fresh_world (inl KeyboardInterrupt))
              ltac:(lia))
    as (h & s' & E & _ & Hseq & _).
  exists h, s'. split; [exact E | exact Hseq].
Defined.

End HeaderCalcFacts.

(** ** Facts of binary64 arithmetic *)

Section FloatFacts.

Local Open Scope float_scope.

Lemma Prim2SF_inj (u v : float) : Prim2SF u = Prim2SF v -> u = v.
Proof.
  intros E. rewrite <- (SF2Prim_Prim2SF u), <- (SF2Prim_Prim2SF v).
  now rewrite E.
Qed.

Lemma SFcompare_refl (u : spec_float) :
  u <> S754_nan -> SFcompare u u = Some Eq.
Proof.
  destruct u as [s | s | | s m e]; intros H; try congruence.
  - reflexivity.
  - destruct s; reflexivity.
  - cbn. destruct s; rewrite Z.compare_refl, Pos.compare_cont_refl; reflexivity.
Qed.

(** The three classes by their representation. *)
Lemma is_nan_spec (u : float) :
  is_nan u = true <-> Prim2SF u = S754_nan.
Proof.
  unfold is_nan. rewrite eqb_spec. unfold SFeqb.
  destruct (Prim2SF u) as [s | s | | s m e] eqn:E.
  - cbn. split; discriminate.
  - destruct s; cbn; split; discriminate.
  - cbn. split; reflexivity.
  - rewrite SFcompare_refl by discriminate. cbn. split; discriminate.
Qed.

Lemma is_zero_spec (u : float) :
  is_zero u = true <-> exists s, Prim2SF u = S754_zero s.
Proof.
  unfold is_zero. rewrite eqb_spec.
  change (Prim2SF zero) with (S754_zero false).
  unfold SFeqb.
  destruct (Prim2SF u) as [s | s | | s m e] eqn:E; cbn.
  - split; eauto.
  - destruct s; split; try discriminate; intros [s' H]; discriminate.
  - split; try discriminate; intros [s' H]; discriminate.
  - destruct s; split; try discriminate; intros [s' H]; discriminate.
Qed.

Lemma is_infinity_spec (u : float) :
  is_infinity u = true <-> exists s, Prim2SF u = S754_infinity s.
Proof.
  unfold is_infinity. rewrite eqb_spec, abs_spec.
  change (Prim2SF infinity) with (S754_infinity false).
  unfold SFeqb.
  destruct (Prim2SF u) as [s | s | | s m e] eqn:E; cbn.
  - split; try discriminate; intros [s' H]; discriminate.
  - split; eauto.
  - split; try discriminate; intros [s' H]; discriminate.
  - split; try discriminate; intros [s' H]; discriminate.
Qed.

Lemma is_finite_spec (u : float) :
  is_finite u = true <->
  (exists s, Prim2SF u = S754_zero s) \/
  (exists s m e, Prim2SF u = S754_finite s m e).
Proof.
  unfold is_finite. rewrite negb_true_iff, orb_false_iff.
  split.
  - intros [Hn Hi].
    destruct (Prim2SF u) as [s | s | | s m e] eqn:E; eauto 6.
    + assert (is_infinity u = true) by (apply is_infinity_spec; eauto).
      congruence.
    + assert (is_nan u = true) by (apply is_nan_spec; eauto).
      congruence.
  - intros H. split.
    + destruct (is_nan u) eqn:Hn; [| reflexivity].
      apply is_nan_spec in Hn.
      destruct H as [[s H] | (s & m & e & H)]; congruence.
    + destruct (is_infinity u) eqn:Hi; [| reflexivity].
      apply is_infinity_spec in Hi. destruct Hi as [s' Hi].
      destruct H as [[s H] | (s & m & e & H)]; congruence.
Qed.


Lemma mul_zero_r (u v : float) :
  is_finite u = true -> is_zero v = true -> is_zero (u * v) = true.
Proof.
  rewrite !is_zero_spec, is_finite_spec, mul_spec.
  intros [[s' Hu] | (s' & m & e & Hu)] [s Hv]; rewrite Hu, Hv; cbn; eauto.
Qed.


Lemma fexp_normal (k : Z) : (-1074 <= k - 53)%Z -> fexp prec emax k = (k - 53)%Z.
Proof. unfold fexp, emin, prec, emax. lia. Qed.

Lemma binary_round_aux_shift52 (s : bool) (m : positive) (e : Z) :
  digits2_pos m = 53%positive ->
  (-1074 <= e + 52 <= 971)%Z ->
  binary_round_aux prec emax s (Zpos (4503599627370496 * m)) e loc_Exact
  = S754_finite s m (e + 52).
Proof.
  intros Hd He.
  unfold binary_round_aux, shr_fexp.
  cbn [Pos.mul Zdigits2 digits2_pos].
  rewrite Hd.
  cbn [Pos.succ].
  rewrite fexp_normal by lia.
  replace (105 + e - 53 - e)%Z with 52%Z by lia.
  cbn [shr shr_record_of_loc iter_pos shr_1 orb shr_m loc_of_shr_record
       round_nearest_even Zdigits2].
  rewrite Hd, fexp_normal by lia.
  replace (53 + (e + 52) - 53 - (e + 52))%Z with 0%Z by lia.
  cbn [shr shr_m shr_record_of_loc].
  unfold emax, prec.
  destruct (Z.leb_spec (e + 52) (1024 - 53)); [reflexivity | lia].
Qed.

(** Multiplying a normal number by a power of two that keeps it in the
    normal range changes its exponent only. *)
Lemma SFmul_pow2_l (s : bool) (m : positive) (e k : Z) :
  digits2_pos m = 53%positive ->
  (-1074 <= k + e + 52 <= 971)%Z ->
  SF64mul (S754_finite false 4503599627370496 k) (S754_finite s m e)
  = S754_finite s m (k + e + 52).
Proof.
  intros Hd He. unfold SF64mul, SFmul. cbn [xorb].
  now rewrite binary_round_aux_shift52.
Qed.

Lemma SFmul_pow2_r (s : bool) (m : positive) (e k : Z) :
  digits2_pos m = 53%positive ->
  (-1074 <= e + k + 52 <= 971)%Z ->
  SF64mul (S754_finite s m e) (S754_finite false 4503599627370496 k)
  = S754_finite s m (e + k + 52).
Proof.
  intros Hd He. unfold SF64mul, SFmul.
  rewrite xorb_false_r, Pos.mul_comm.
  now rewrite binary_round_aux_shift52.
Qed.

Lemma binary_round_aux_opp (s : bool) (m e : Z) (l : location) :
  binary_round_aux prec emax (negb s) m e l
  = SFopp (binary_round_aux prec emax s m e l).
Proof.
  unfold binary_round_aux.
  destruct (shr_fexp prec emax m e l) as [mrs' e'].
  destruct (shr_fexp prec emax _ e' loc_Exact) as [mrs'' e''].
  destruct (shr_m mrs''); [reflexivity | | reflexivity].
  destruct (e'' <=? emax - prec)%Z; reflexivity.
Qed.

Lemma SFmul_opp_l (u v : spec_float) :
  SF64mul (SFopp u) v = SFopp (SF64mul u v).
Proof.
  unfold SF64mul.
  destruct u as [s | s | | s m e], v as [s' | s' | | s' m' e'];
    cbn [SFmul SFopp]; rewrite <- ?negb_xorb_l; try reflexivity.
  apply binary_round_aux_opp.
Qed.

Lemma mul_opp_l (u v : float) : (- u) * v = - (u * v).
Proof.
  apply Prim2SF_inj.
  now rewrite opp_spec, !mul_spec, opp_spec, SFmul_opp_l.
Qed.

(** A finite number of magnitude at least 2^-1021 is normal, with an
    exponent above the least one. *)
Lemma normal_of_leb (v : float) (s : bool) (m : positive) (e : Z) :
  Prim2SF v = S754_finite s m e ->
  (0x1p-1021 <=? abs v) = true ->
  digits2_pos m = 53%positive /\ (-1073 <= e <= 971)%Z.
Proof.
  intros Hv Hle.
  rewrite leb_spec, abs_spec, Hv in Hle.
  change (Prim2SF 0x1p-1021) with (S754_finite false 4503599627370496 (-1073)) in Hle.
  assert (He : (-1073 <= e)%Z).
  { unfold SFleb in Hle. cbn [SFabs SFcompare] in Hle.
    destruct (Z.compare_spec (-1073) e); [lia | lia | discriminate]. }
  pose proof (Prim2SF_valid v) as Hvalid. rewrite Hv in Hvalid.
  unfold valid_binary, bounded, canonical_mantissa in Hvalid.
  apply andb_true_iff in Hvalid. destruct Hvalid as [Hc Hb].
  apply Z.eqb_eq in Hc. apply Z.leb_le in Hb.
  unfold fexp, emin, emax, prec in *.
  split; [| lia].
  assert (Z.pos (digits2_pos m) = 53%Z) by lia.
  congruence.
Qed.

(** Halving then doubling gives the number back, unless the halving
    underflows. *)
Lemma half_twice (v : float) :
  halves_exactly v = true -> 0.5 * v * 2 = v.
Proof.
  intros H. apply Prim2SF_inj. rewrite !mul_spec.
  change (Prim2SF 0.5) with (S754_finite false 4503599627370496 (-53)).
  change (Prim2SF 2) with (S754_finite false 4503599627370496 (-51)).
  destruct (Prim2SF v) as [s | s | | s m e] eqn:Hv.
  - cbn. now rewrite xorb_false_r.
  - cbn. now rewrite xorb_false_r.
  - reflexivity.
  - unfold halves_exactly in H.
    assert (Hn : is_nan v = false).
    { destruct (is_nan v) eqn:E; [| reflexivity].
      apply is_nan_spec in E. congruence. }
    assert (Hz : is_zero v = false).
    { destruct (is_zero v) eqn:E; [| reflexivity].
      apply is_zero_spec in E. destruct E as [s' E]. congruence. }
    rewrite Hn, Hz in H. cbn [orb] in H.
    destruct (normal_of_leb v s m e Hv H) as [Hd He].
    rewrite SFmul_pow2_l by (assumption || lia).
    rewrite SFmul_pow2_r by (assumption || lia).
    f_equal. lia.
Qed.

Lemma neg_half_twice (v : float) :
  halves_exactly v = true -> (-0.5) * v * 2 = - v.
Proof.
  intros H.
  change (-0.5) with (- (0.5)).
  now rewrite !mul_opp_l, half_twice.
Qed.



(** A zero divided by a number that is neither NaN nor a zero is a
    zero. *)
Lemma div_zero_l (u v : float) :
  is_zero u = true -> is_nan v = false -> is_zero v = false ->
  is_zero (u / v) = true.
Proof.
  intros Hu Hn Hz. apply is_zero_spec in Hu. destruct Hu as [s Hu].
  apply is_zero_spec. rewrite div_spec, Hu.
  destruct (Prim2SF v) as [s' | s' | | s' m e] eqn:Hv; cbn; eauto.
  - assert (is_zero v = true) by (apply is_zero_spec; eauto). congruence.
  - assert (is_nan v = true) by (now apply is_nan_spec). congruence.
Qed.

End FloatFacts.

(** ** CamVizHandler: the markers *)

Lemma class_focal_nonzero :
  (2 * CamVizHandler.class_CAMERA_FOCAL =? 0)%float = false.
Proof. vm_compute. reflexivity. Qed.

(** Unfolds a run of [make_cam_fov_marker] on a handler whose attributes
    are known. *)
Ltac run_make_cam_fov_marker :=
  unfold CamVizHandler.make_cam_fov_marker, bind, get_self, truediv, lift,
    Time_now, get_rostime, ret, raise;
  cbn [fst snd CamVizHandler.__init__ zero_fov_handler
       CamVizHandler.CAMERA_FOCAL CamVizHandler.CAMERA_SENSOR
       CamVizHandler.CAMERA_RES];
  rewrite class_focal_nonzero;
  cbn [fst snd].

Section CamVizHandlerFacts.

Import CamVizHandler.
Local Open Scope float_scope.

Variables tan atan : float -> float.

(** What [make_cam_fov_marker] returns for a handler as the class makes
    it: two markers, the box first, and the segments they draw. *)
Lemma make_cam_fov_marker_run (w : World) (D : float)
    (det : RegionOfInterestWithCovarianceStamped) :
  exists box cone,
    make_cam_fov_marker tan atan D det (__init__, w)
    = Returned [box; cone] (__init__, tick (tick w))
    /\ points box = flat_map ends (Spec.box tan atan D det)
    /\ points cone = flat_map ends (Spec.cone tan atan D)
    /\ identity box = cam_box_identity
    /\ identity cone = cam_fov_identity
    /\ header_frame_id (header box) = "fake_grabber_cam"
    /\ header_frame_id (header cone) = "fake_grabber"
    /\ seq (header box) = seq Header0
    /\ seq (header cone) = seq Header0
    /\ mtype box = LINE_LIST /\ mtype cone = LINE_LIST
    /\ position (pose box) = {| x := 0; y := 0; z := D |}
    /\ position (pose cone) = Point0.
Proof.
  run_make_cam_fov_marker.
  do 2 eexists. split; [reflexivity |].
  cbn [points header identity ns id mtype pose position header_frame_id seq].
  repeat (split; [reflexivity |]). reflexivity.
Qed.

(** Reading the segments back from the points that draw them. *)
Lemma segments_flat_map_ends (l : list (Point * Point)) :
  segments (flat_map ends l) = l.
Proof.
  induction l as [| [p q] l IH]; [reflexivity |].
  cbn [flat_map ends app fst snd segments]. now rewrite IH.
Qed.

(** C1: for every detection and distance the first marker returned is the
    bounding box: four segments, the outline of the rectangle whose
    corners are top_left = (x - 640/2, y - 360/2) and bottom_right =
    top_left + (w, h), each divided by (640, 360), multiplied by (X, Y)
    and by 2; its points have z = 0; it is expressed in the frame
    fake_grabber_cam, which is not the cone's frame; and its pose is moved
    by [D] along z. *)
Theorem C1_bounding_box_wireframe (w : World) (D : float)
    (det : RegionOfInterestWithCovarianceStamped) :
  let X := D * tan (Spec.hFOV atan / 2) in
  let Y := D * tan (Spec.vFOV atan / 2) in
  let top_left := (roi_x det - 640 / 2, roi_y det - 360 / 2) in
  let bottom_right := (fst top_left + roi_w det, snd top_left + roi_h det) in
  let metres := fun px : float * float =>
                  (fst px / 640 * X * 2, snd px / 360 * Y * 2) in
  let tl := metres top_left in
  let br := metres bottom_right in
  exists box cone s',
    make_cam_fov_marker tan atan D det (__init__, w) = Returned [box; cone] s'
    /\ segments (points box)
       = [ (Build_Point (fst tl) (snd tl) 0, Build_Point (fst br) (snd tl) 0);
           (Build_Point (fst br) (snd tl) 0, Build_Point (fst br) (snd br) 0);
           (Build_Point (fst br) (snd br) 0, Build_Point (fst tl) (snd br) 0);
           (Build_Point (fst tl) (snd br) 0, Build_Point (fst tl) (snd tl) 0) ]
    /\ List.length (points box) = 8%nat
    /\ (forall p, In p (points box) -> z p = 0)
    /\ mtype box = LINE_LIST
    /\ header_frame_id (header box) = "fake_grabber_cam"
    /\ header_frame_id (header box) <> header_frame_id (header cone)
    /\ position (pose box) = {| x := 0; y := 0; z := D |}.
Proof.
  intros X Y top_left bottom_right metres tl br.
  destruct (make_cam_fov_marker_run w D det)
    as (box & cone & Hrun & Hbox & _ & _ & _ & Hfb & Hfc & _ & _ & Htb & _ & Hpose & _).
  exists box, cone, (__init__, tick (tick w)).
  split; [exact Hrun |].
  split; [rewrite Hbox; apply segments_flat_map_ends |].
  split; [rewrite Hbox; reflexivity |].
  split.
  { intros p Hp. rewrite Hbox in Hp. cbn in Hp.
    repeat (destruct Hp as [<- | Hp]; [reflexivity |]). destruct Hp. }
  split; [exact Htb |].
  split; [exact Hfb |].
  split; [rewrite Hfb, Hfc; discriminate | exact Hpose].
Qed.

(** C2: for every distance the second marker returned is the cone, in the
    frame fake_grabber: eight segments, four from the apex (0,0,0) to the
    corners (+-X, +-Y, D) and four that join those corners in a
    rectangle, with X = D tan(hFOV/2), Y = D tan(vFOV/2), hFOV =
    2 atan(S.x/(2F)) and vFOV = 2 atan(S.y/(2F)). *)
Theorem C2_cone_wireframe (w : World) (D : float)
    (det : RegionOfInterestWithCovarianceStamped) :
  let S := (5449 * (640 / 672) * 1e-6, 3072 * (360 / 380) * 1e-6) in
  let F := 11e-3 in
  let hFOV := 2 * atan (fst S / (2 * F)) in
  let vFOV := 2 * atan (snd S / (2 * F)) in
  let X := D * tan (hFOV / 2) in
  let Y := D * tan (vFOV / 2) in
  let apex := Build_Point 0 0 0 in
  let c1 := Build_Point X Y D in
  let c2 := Build_Point (- X) Y D in
  let c3 := Build_Point (- X) (- Y) D in
  let c4 := Build_Point X (- Y) D in
  exists box cone s',
    make_cam_fov_marker tan atan D det (__init__, w) = Returned [box; cone] s'
    /\ segments (points cone)
       = [ (apex, c1); (apex, c2); (apex, c3); (apex, c4);
           (c1, c2); (c2, c3); (c3, c4); (c4, c1) ]
    /\ List.length (segments (points cone)) = 8%nat
    /\ List.length (points cone) = 16%nat
    /\ (forall sx sy : bool,
          In (Build_Point (if sx then - X else X) (if sy then - Y else Y) D)
             [c1; c2; c3; c4])
    /\ mtype cone = LINE_LIST
    /\ header_frame_id (header cone) = "fake_grabber"
    /\ position (pose cone) = Build_Point 0 0 0.
Proof.
  intros S F hFOV vFOV X Y apex c1 c2 c3 c4.
  destruct (make_cam_fov_marker_run w D det)
    as (box & cone & Hrun & _ & Hcone & _ & _ & _ & Hfc & _ & _ & _ & Htc & _ & Hpose).
  exists box, cone, (__init__, tick (tick w)).
  split; [exact Hrun |].
  split; [rewrite Hcone; apply segments_flat_map_ends |].
  split; [rewrite Hcone, segments_flat_map_ends; reflexivity |].
  split; [rewrite Hcone; reflexivity |].
  split.
  { intros [|] [|]; cbn; auto. }
  split; [exact Htc |].
  split; [exact Hfc | exact Hpose].
Qed.

End CamVizHandlerFacts.

(** ** The bounding box of the whole frame *)

Section FullFrame.

Import CamVizHandler.
Local Open Scope float_scope.

(** C3, as stated, fails: at the distance 3 * 2^-1074, with the tangent of
    the half-angle correctly rounded, X is the least positive double
    2^-1074; the box's left edge is at -0.5 * X * 2, where the halving
    rounds to -0, and not at -X. *)
Lemma C3_counterexample :
  ~ (forall (tan atan : float -> float) (w : World) (D : float),
       full_frame_coincides tan atan w D).
Proof.
  intros H.
  specialize (H sample_tan sample_atan (fresh_world (inl KeyboardInterrupt))
                0x3p-1074).
  destruct H as (box & cone & s' & Hrun & Hbox & _).
  destruct (make_cam_fov_marker_run sample_tan sample_atan
              (fresh_world (inl KeyboardInterrupt)) 0x3p-1074 full_frame)
    as (box' & cone' & Hrun' & Hbox' & _).
  rewrite Hrun' in Hrun. inversion Hrun; subst box cone s'.
  rewrite Hbox', segments_flat_map_ends in Hbox.
  apply (f_equal (fun l => match l with
                           | (p, _) :: _ => is_zero (x p)
                           | [] => false
                           end)) in Hbox.
  vm_compute in Hbox. discriminate.
Qed.

(** The corners of the whole frame, relative to the centre and divided by
    the resolution, are (-0.5, -0.5) and (0.5, 0.5). *)
Lemma full_frame_normalised :
  fst (Spec.top_left full_frame) / fst Spec.R = -0.5
  /\ snd (Spec.top_left full_frame) / snd Spec.R = -0.5
  /\ fst (Spec.bottom_right full_frame) / fst Spec.R = 0.5
  /\ snd (Spec.bottom_right full_frame) / snd Spec.R = 0.5.
Proof. repeat split; vm_compute; reflexivity. Qed.

(** C3, amended: when the half-extents X and Y at the distance [D] survive
    halving (each is NaN, a zero, or of magnitude at least 2^-1021), the
    bounding box of the whole frame has its corners at (-X,-Y), (X,-Y),
    (X,Y) and (-X,Y), in a frame moved by [D] along the axis: on the
    corners (+-X, +-Y, D) of the cone's far plane. *)
Theorem C3_full_frame_on_far_plane (tan atan : float -> float) (w : World)
    (D : float) :
  halves_exactly (Spec.X tan atan D) = true ->
  halves_exactly (Spec.Y tan atan D) = true ->
  full_frame_coincides tan atan w D.
Proof.
  intros HX HY. unfold full_frame_coincides.
  destruct (make_cam_fov_marker_run tan atan w D full_frame)
    as (box & cone & Hrun & Hbox & Hcone & _ & _ & _ & _ & _ & _ & _ & _ & Hpose & _).
  exists box, cone, (__init__, tick (tick w)).
  split; [exact Hrun |].
  split.
  - rewrite Hbox, segments_flat_map_ends.
    unfold Spec.box, Spec.box_corners, Spec.to_metres.
    destruct full_frame_normalised as (Htlx & Htly & Hbrx & Hbry).
    cbn [fst snd].
    rewrite Htlx, Htly, Hbrx, Hbry.
    rewrite !neg_half_twice, !half_twice by assumption.
    reflexivity.
  - split; [now rewrite Hpose |].
    rewrite Hcone, segments_flat_map_ends. reflexivity.
Qed.

(** C3 at the distance 1, with the tangent and arc tangent correctly
    rounded. *)
Lemma C3_witness :
  halves_exactly (Spec.X sample_tan sample_atan 1) = true
  /\ halves_exactly (Spec.Y sample_tan sample_atan 1) = true
  /\ full_frame_coincides sample_tan sample_atan
       (fresh_world (inl KeyboardInterrupt)) 1.
Proof.
  split; [vm_compute; reflexivity |].
  split; [vm_compute; reflexivity |].
  apply C3_full_frame_on_far_plane; vm_compute; reflexivity.
Defined.

End FullFrame.

(** ** The callbacks *)

Section CallbackFacts.

Local Open Scope float_scope.

Variables tan atan : float -> float.

(** One step of a sequence. *)
Lemma bind_Returned {S A B} (m : M S A) (k : A -> M S B) (s s' : S) (v : A) :
  m s = Returned v s' -> bind m k s = k v s'.
Proof. unfold bind. now intros ->. Qed.

Lemma bind_Raised {S A B} (m : M S A) (k : A -> M S B) (s s' : S) (e : exn) :
  m s = Raised e s' -> bind m k s = Raised e s'.
Proof. unfold bind. now intros ->. Qed.

(** [CamVizHandler.callback] on a handler as the class makes it: what it
    does by the answer of the transform service. *)
Lemma cam_callback_run (w : World)
    (cam : RegionOfInterestWithCovarianceStamped) :
  match next_answer w "fake_apple" "fake_grabber" with
  | inl e =>
    CamVizHandler.callback tan atan cam (CamVizHandler.__init__, w)
    = Raised e (CamVizHandler.__init__, called w)
  | inr resp =>
    exists box cone w',
      CamVizHandler.make_cam_fov_marker tan atan
        (vz (translation (transform (resp_transform resp)))) cam
        (CamVizHandler.__init__, called w)
      = Returned [box; cone] (CamVizHandler.__init__, tick (tick (called w)))
      /\ CamVizHandler.callback tan atan cam (CamVizHandler.__init__, w)
         = Returned tt (CamVizHandler.__init__, w')
      /\ published w'
         = (published w ++ [("visualization_marker", box);
                            ("visualization_marker", cone)])%list
      /\ identity box = cam_box_identity
      /\ identity cone = cam_fov_identity
      /\ seq (header box) = seq Header0
      /\ seq (header cone) = seq Header0
  end.
Proof.
  unfold next_answer.
  destruct (services w "Tf2Transform" (calls w) "fake_apple" "fake_grabber"
              Time0 Time0) as [e | resp] eqn:Hans.
  - unfold CamVizHandler.callback, bind, get_self, lift, call.
    cbn [fst snd CamVizHandler.tf_get CamVizHandler.__init__ service].
    rewrite Hans. reflexivity.
  - destruct (make_cam_fov_marker_run tan atan (called w)
                (vz (translation (transform (resp_transform resp)))) cam)
      as (box & cone & Hrun & _ & _ & Hib & Hic & _ & _ & Hsb & Hsc & _).
    exists box, cone. eexists.
    split; [exact Hrun |].
    unfold CamVizHandler.callback.
    erewrite bind_Returned by reflexivity.
    erewrite bind_Returned
      by (unfold lift, call;
          cbn [fst snd CamVizHandler.tf_get CamVizHandler.__init__ service];
          rewrite Hans; reflexivity).
    erewrite bind_Returned by exact Hrun.
    unfold for_each, bind, get_self, lift, publish, ret.
    cbn [fst snd CamVizHandler.p_out CamVizHandler.__init__ topic].
    split; [reflexivity |].
    cbn [published tick]. rewrite <- app_assoc.
    split; [reflexivity |]. auto.
Qed.

(** C5: when the transform service answers, [CamVizHandler.callback]
    returns after exactly two publications, the bounding box and then the
    cone that [make_cam_fov_marker] returns for the z of the translation;
    when the service raises, the same exception leaves the callback, and
    nothing has been published. *)
Theorem C5_camera_callback_publishes_twice_or_raises (w : World)
    (cam : RegionOfInterestWithCovarianceStamped) :
  (forall resp,
     next_answer w "fake_apple" "fake_grabber" = inr resp ->
     exists box cone s',
       CamVizHandler.callback tan atan cam (CamVizHandler.__init__, w)
       = Returned tt s'
       /\ published (snd s')
          = (published w ++ [("visualization_marker", box);
                             ("visualization_marker", cone)])%list
       /\ value_of (CamVizHandler.make_cam_fov_marker tan atan
                      (vz (translation (transform (resp_transform resp)))) cam
                      (CamVizHandler.__init__, called w))
          = Some [box; cone]
       /\ identity box = cam_box_identity
       /\ identity cone = cam_fov_identity)
  /\ (forall e,
        next_answer w "fake_apple" "fake_grabber" = inl e ->
        exists s',
          CamVizHandler.callback tan atan cam (CamVizHandler.__init__, w)
          = Raised e s'
          /\ published (snd s') = published w).
Proof.
  pose proof (cam_callback_run w cam) as Hrun.
  split.
  - intros resp Hans. rewrite Hans in Hrun.
    destruct Hrun as (box & cone & w' & Hmk & Hcb & Hpub & Hib & Hic & _).
    exists box, cone, (CamVizHandler.__init__, w').
    split; [exact Hcb |]. split; [exact Hpub |].
    split; [now rewrite Hmk |]. split; assumption.
  - intros e Hans. rewrite Hans in Hrun.
    eexists. split; [exact Hrun | reflexivity].
Qed.

End CallbackFacts.

(** C5 where the service answers with the translation (0, 0, 1), and
    where it raises. *)
Lemma C5_witness :
  (exists box cone s',
     CamVizHandler.callback sample_tan sample_atan full_frame
       (CamVizHandler.__init__, fresh_world (inr (response_at 0 0 1)))
     = Returned tt s'
     /\ published (snd s')
        = [("visualization_marker", box); ("visualization_marker", cone)])
  /\ (exists s',
        CamVizHandler.callback sample_tan sample_atan full_frame
          (CamVizHandler.__init__,
           fresh_world (inl (ServiceException "no transform")))
        = Raised (ServiceException "no transform") s'
        /\ published (snd s') = []).
Proof.
  split.
  - destruct (C5_camera_callback_publishes_twice_or_raises
                sample_tan sample_atan
                (fresh_world (inr (response_at 0 0 1))) full_frame)
      as [Hok _].
    destruct (Hok (response_at 0 0 1) eq_refl)
      as (box & cone & s' & Hcb & Hpub & _).
    exists box, cone, s'. split; [exact Hcb | exact Hpub].
  - destruct (C5_camera_callback_publishes_twice_or_raises
                sample_tan sample_atan
                (fresh_world (inl (ServiceException "no transform"))) full_frame)
      as [_ Hraise].
    exact (Hraise (ServiceException "no transform") eq_refl).
Defined.

(** ** The magnitude of the translation *)

Section MagnitudeFacts.

Local Open Scope float_scope.

Lemma float_pow2_run {S} (v : float) (s : S) :
  float_pow2 v s
  = if pow2_overflows v
    then Raised (OverflowError "Numerical result out of range") s
    else Returned (pow2_value v) s.
Proof.
  unfold float_pow2, pow2_overflows, pow2_value, ret, raise.
  destruct (is_nan v); [reflexivity |].
  destruct (is_infinity v); [reflexivity |].
  cbn [negb andb]. destruct (is_infinity (v * v)); reflexivity.
Qed.

(** Rounding with a positive sign gives nothing below zero. *)
Lemma binary_round_aux_not_negative (m e : Z) (l : location) :
  not_negative (binary_round_aux prec emax false m e l).
Proof.
  unfold binary_round_aux.
  destruct (shr_fexp prec emax m e l) as [mrs' e'].
  destruct (shr_fexp prec emax _ e' loc_Exact) as [mrs'' e''].
  destruct (shr_m mrs'') as [| p | p]; [exact I | | exact I].
  destruct (e'' <=? emax - prec)%Z; exact I.
Qed.

Lemma pow2_value_not_negative (v : float) :
  not_negative (Prim2SF (pow2_value v)).
Proof.
  unfold pow2_value.
  destruct (is_nan v) eqn:Hn.
  - apply is_nan_spec in Hn. now rewrite Hn.
  - destruct (is_infinity v) eqn:Hi.
    + rewrite abs_spec. now destruct (Prim2SF v).
    + rewrite mul_spec. unfold SF64mul.
      destruct (Prim2SF v) as [s | s | | s m e]; cbn [SFmul];
        rewrite ?xorb_nilpotent; cbn; auto.
      apply binary_round_aux_not_negative.
Qed.

Lemma add_not_negative (u v : float) :
  not_negative (Prim2SF u) -> not_negative (Prim2SF v) ->
  not_negative (Prim2SF (u + v)).
Proof.
  rewrite add_spec. unfold SF64add.
  destruct (Prim2SF u) as [s | s | | s m e], (Prim2SF v) as [s' | s' | | s' m' e'];
    try destruct s; try destruct s'; cbn; auto; try tauto.
  unfold binary_round.
  destruct (shl_align _ _ _) as [mz ez].
  intros _ _. apply binary_round_aux_not_negative.
Qed.

(** Shifting and rounding keep a mantissa that is not negative so. *)
Lemma shr_1_nonneg (mrs : shr_record) :
  (0 <= shr_m mrs)%Z -> (0 <= shr_m (shr_1 mrs))%Z.
Proof.
  destruct mrs as [m r s]. cbn [shr_m]. intros Hm.
  destruct m as [| [p | p |] | p]; cbn; lia.
Qed.

Lemma iter_shr_1_nonneg (p : positive) (mrs : shr_record) :
  (0 <= shr_m mrs)%Z -> (0 <= shr_m (iter_pos shr_1 p mrs))%Z.
Proof.
  revert mrs. induction p as [p IH | p IH |]; intros mrs Hm; cbn [iter_pos].
  - apply IH, IH, shr_1_nonneg, Hm.
  - apply IH, IH, Hm.
  - apply shr_1_nonneg, Hm.
Qed.

Lemma shr_fexp_nonneg (m e : Z) (l : location) :
  (0 <= m)%Z -> (0 <= shr_m (fst (shr_fexp prec emax m e l)))%Z.
Proof.
  intros Hm. unfold shr_fexp, shr.
  assert (H0 : (0 <= shr_m (shr_record_of_loc m l))%Z).
  { destruct l as [| []]; exact Hm. }
  destruct (fexp prec emax (Zdigits2 m + e) - e)%Z; cbn [fst]; auto.
  now apply iter_shr_1_nonneg.
Qed.

Lemma round_nearest_even_nonneg (m : Z) (l : location) :
  (0 <= m)%Z -> (0 <= round_nearest_even m l)%Z.
Proof.
  intros Hm. destruct l as [| []]; cbn; try lia.
  destruct (Z.even m); lia.
Qed.

Lemma binary_round_aux_not_nan (s : bool) (m e : Z) (l : location) :
  (0 <= m)%Z -> binary_round_aux prec emax s m e l <> S754_nan.
Proof.
  intros Hm. unfold binary_round_aux.
  pose proof (shr_fexp_nonneg m e l Hm) as H1.
  destruct (shr_fexp prec emax m e l) as [mrs' e']. cbn [fst] in H1.
  pose proof (shr_fexp_nonneg _ e' loc_Exact
                (round_nearest_even_nonneg _ (loc_of_shr_record mrs') H1)) as H2.
  destruct (shr_fexp prec emax _ e' loc_Exact) as [mrs'' e'']. cbn [fst] in H2.
  destruct (shr_m mrs'') as [| p | p]; [discriminate | | lia].
  destruct (e'' <=? emax - prec)%Z; discriminate.
Qed.

(** The square root of a float that is not negative is NaN only when the
    float is. *)
Lemma sqrt_not_negative (v : float) :
  not_negative (Prim2SF v) -> is_nan (sqrt v) = true -> is_nan v = true.
Proof.
  intros Hv Hs. apply is_nan_spec in Hs. apply is_nan_spec.
  rewrite sqrt_spec in Hs. unfold SF64sqrt in Hs.
  destruct (Prim2SF v) as [s | s | | s m e]; cbn [SFsqrt] in Hs.
  - discriminate.
  - destruct s; [destruct Hv | discriminate].
  - reflexivity.
  - destruct s; [destruct Hv |].
    exfalso. revert Hs.
    unfold SFsqrt_core_binary.
    set (m' := match (e - 2 * _)%Z with
               | Z0 => Z.pos m | Zpos _ => _ | Zneg _ => _ end).
    assert (Hm' : (0 <= m')%Z).
    { subst m'. destruct (e - 2 * _)%Z; try lia. apply Z.shiftl_nonneg. lia. }
    pose proof (Z.sqrtrem_spec m' Hm') as Hq.
    destruct (Z.sqrtrem m') as [q r].
    apply binary_round_aux_not_nan. lia.
Qed.

(** [math.sqrt] returns on a float that is not negative. *)
Lemma math_sqrt_run {S} (v : float) (s : S) :
  not_negative (Prim2SF v) -> math_sqrt v s = Returned (sqrt v) s.
Proof.
  intros Hv. unfold math_sqrt, ret, raise.
  destruct (is_nan (sqrt v)) eqn:Hs; [| reflexivity].
  now rewrite (sqrt_not_negative v Hv Hs).
Qed.

End MagnitudeFacts.

(** ** KalmanVizHandler.callback *)

Section KalmanFacts.

Local Open Scope float_scope.

(** [KalmanVizHandler.callback] on a handler as the class makes it: what
    it does by the answer of the transform service and by whether a square
    of the translation overflows. *)
Lemma kalman_callback_run (w : World) (res : PointWithCovarianceStamped) :
  let s := (KalmanVizHandler.__init__, w) in
  let s1 := (KalmanVizHandler.__init__, called w) in
  match next_answer w "apple" "fake_grabber" with
  | inl e =>
    KalmanVizHandler.callback res s
    = if isinstance_Exception e then Returned tt s1 else Raised e s1
  | inr resp =>
    let t := translation (transform (resp_transform resp)) in
    if magnitude_overflows t
    then KalmanVizHandler.callback res s
         = Raised (OverflowError "Numerical result out of range") s1
    else exists arrow w',
        KalmanVizHandler.callback res s
        = Returned tt (KalmanVizHandler.__init__, w')
        /\ published w'
           = (published w ++ [("visualization_marker", arrow)])%list
        /\ logged w' = logged w
        /\ points arrow = [Build_Point 0 0 0; Point_of_Vector3 t]
        /\ identity arrow = arrow_identity
        /\ mtype arrow = LINE_LIST
        /\ header_frame_id (header arrow) = "fake_grabber"
        /\ seq (header arrow) = seq Header0
        /\ position (pose arrow) = Point0
  end.
Proof.
  intros s s1. unfold next_answer.
  destruct (services w "Tf2Transform" (calls w) "apple" "fake_grabber"
              Time0 Time0) as [e | resp] eqn:Hans.
  - unfold KalmanVizHandler.callback, s.
    erewrite bind_Returned by reflexivity.
    unfold bind, try_except_Exception, lift, call, ret.
    cbn [fst snd KalmanVizHandler.tf_get KalmanVizHandler.__init__ service].
    rewrite Hans. destruct (isinstance_Exception e); reflexivity.
  - cbv zeta.
    set (t := translation (transform (resp_transform resp))).
    assert (Hstart :
      forall k : option Tf2TransformResponse -> M _ unit,
        bind (try_except_Exception
                (bind (lift (call (KalmanVizHandler.tf_get KalmanVizHandler.__init__)
                               "apple" "fake_grabber" Time0 Time0))
                      (fun d => ret (Some d)))
                (ret None)) k s
        = k (Some resp) s1).
    { intros k. unfold bind, try_except_Exception, lift, call, ret, s.
      cbn [fst snd KalmanVizHandler.tf_get KalmanVizHandler.__init__ service].
      rewrite Hans. reflexivity. }
    unfold KalmanVizHandler.callback, s.
    erewrite bind_Returned by reflexivity.
    cbn [fst]. fold s. rewrite Hstart. fold t.
    unfold magnitude_overflows.
    destruct (pow2_overflows (vx t)) eqn:Hx.
    { cbn [orb]. erewrite bind_Raised; [reflexivity |].
      rewrite float_pow2_run, Hx. reflexivity. }
    erewrite bind_Returned by (rewrite float_pow2_run, Hx; reflexivity).
    destruct (pow2_overflows (vy t)) eqn:Hy.
    { cbn [orb]. erewrite bind_Raised; [reflexivity |].
      rewrite float_pow2_run, Hy. reflexivity. }
    erewrite bind_Returned by (rewrite float_pow2_run, Hy; reflexivity).
    destruct (pow2_overflows (vz t)) eqn:Hz.
    { cbn [orb]. erewrite bind_Raised; [reflexivity |].
      rewrite float_pow2_run, Hz. reflexivity. }
    erewrite bind_Returned by (rewrite float_pow2_run, Hz; reflexivity).
    cbn [orb].
    erewrite bind_Returned
      by (apply math_sqrt_run; repeat apply add_not_negative;
          apply pow2_value_not_negative).
    unfold bind, lift, Time_now, get_rostime, publish, s1.
    cbn [fst snd KalmanVizHandler.p_out KalmanVizHandler.__init__ topic].
    do 2 eexists. split; [reflexivity |].
    cbn [published logged points identity ns id mtype header header_frame_id
         seq pose position called].
    repeat (split; [reflexivity |]). reflexivity.
Qed.

End KalmanFacts.

(** ** What the callbacks leave alone *)

Section FrameFacts.

Local Open Scope float_scope.

Context {S X : Type} (f : S -> X).

Lemma preserves_ret {A} (v : A) : preserves f (ret v).
Proof. intros s. reflexivity. Qed.

Lemma preserves_raise {A} (e : exn) : preserves f (@raise S A e).
Proof. intros s. reflexivity. Qed.

Lemma preserves_bind {A B} (m : M S A) (k : A -> M S B) :
  preserves f m -> (forall v, preserves f (k v)) -> preserves f (bind m k).
Proof.
  intros Hm Hk s. unfold bind. specialize (Hm s).
  destruct (m s) as [v s' | e s']; cbn [state_of] in *.
  - now rewrite Hk.
  - exact Hm.
Qed.

Lemma preserves_try {A} (m h : M S A) :
  preserves f m -> preserves f h -> preserves f (try_except_Exception m h).
Proof.
  intros Hm Hh s. unfold try_except_Exception. specialize (Hm s).
  destruct (m s) as [v s' | e s']; cbn [state_of] in *; [exact Hm |].
  destruct (isinstance_Exception e); [now rewrite Hh | exact Hm].
Qed.

Lemma preserves_for_each {A} (l : list A) (body : A -> M S unit) :
  (forall v, preserves f (body v)) -> preserves f (for_each l body).
Proof.
  intros Hb. induction l as [| v l IH]; cbn [for_each].
  - apply preserves_ret.
  - apply preserves_bind; auto.
Qed.

Lemma preserves_truediv (u v : float) : preserves f (truediv u v).
Proof.
  unfold truediv. destruct (v =? 0);
    [apply preserves_raise | apply preserves_ret].
Qed.

Lemma preserves_float_pow2 (v : float) : preserves f (float_pow2 v).
Proof. intros s. rewrite float_pow2_run. now destruct (pow2_overflows v). Qed.

Lemma preserves_math_sqrt (v : float) : preserves f (math_sqrt v).
Proof.
  unfold math_sqrt. destruct (is_nan (sqrt v) && negb (is_nan v));
    [apply preserves_raise | apply preserves_ret].
Qed.

End FrameFacts.

Section FrameOfMethods.

Context {O : Type}.

(** A computation on the world does not touch the object. *)
Lemma preserves_self_lift {A} (m : M World A) :
  preserves (@self_of O) (lift m).
Proof. intros [o w]. unfold lift, self_of. cbn [snd fst]. now destruct (m w). Qed.

Lemma preserves_self_get_self : preserves (@self_of O) get_self.
Proof. intros s. reflexivity. Qed.

Lemma preserves_log_get_self : preserves (@log_of O) get_self.
Proof. intros s. reflexivity. Qed.

(** The clock, the publisher and the service write no line of the log. *)
Lemma preserves_log_lift {A} (m : M World A) :
  preserves logged m -> preserves (@log_of O) (lift m).
Proof.
  intros Hm [o w]. unfold lift, log_of. cbn [snd fst]. specialize (Hm w).
  now destruct (m w).
Qed.

Lemma preserves_log_Time_now : preserves logged Time_now.
Proof. intros w. reflexivity. Qed.

Lemma preserves_log_publish (p : Publisher) (m : Marker) :
  preserves logged (publish p m).
Proof. intros w. reflexivity. Qed.

Lemma preserves_log_call (p : ServiceProxy) (src tgt : string) (t d : Time) :
  preserves logged (call p src tgt t d).
Proof.
  intros w. unfold call. now destruct (services w (service p) (calls w) src tgt t d).
Qed.

End FrameOfMethods.

Create HintDb frame discriminated.
#[local] Hint Resolve preserves_ret preserves_raise preserves_bind preserves_try
  preserves_for_each preserves_truediv preserves_float_pow2 preserves_math_sqrt
  preserves_self_lift preserves_self_get_self preserves_log_get_self
  preserves_log_lift preserves_log_Time_now preserves_log_publish
  preserves_log_call : frame.

Section CallbackFrames.

Variables tan atan : float -> float.

Ltac frame :=
  repeat first
    [ progress intros
    | apply preserves_bind
    | apply preserves_try
    | apply preserves_for_each
    | match goal with |- preserves _ (match ?v with _ => _ end) => destruct v end
    | solve [auto with frame] ].

Lemma cam_callback_keeps_self cam :
  preserves self_of (CamVizHandler.callback tan atan cam).
Proof.
  unfold CamVizHandler.callback, CamVizHandler.make_cam_fov_marker. frame.
Qed.

Lemma cam_callback_keeps_log cam :
  preserves log_of (CamVizHandler.callback tan atan cam).
Proof.
  unfold CamVizHandler.callback, CamVizHandler.make_cam_fov_marker. frame.
Qed.

Lemma kalman_callback_keeps_self res :
  preserves self_of (KalmanVizHandler.callback res).
Proof. unfold KalmanVizHandler.callback. frame. Qed.

Lemma kalman_callback_keeps_log res :
  preserves log_of (KalmanVizHandler.callback res).
Proof. unfold KalmanVizHandler.callback. frame. Qed.

End CallbackFrames.

(** ** The node *)

Section NodeFacts.

Local Open Scope float_scope.

Variables tan atan : float -> float.

Lemma own_cam_box (m : Marker) :
  identity m = cam_box_identity -> seq (header m) = seq Header0 ->
  own_publication ("visualization_marker", m).
Proof.
  intros Hi Hs. unfold own_publication. cbn [fst snd].
  rewrite Hi. repeat split; [left; reflexivity | exact Hs].
Qed.

Lemma own_cam_fov (m : Marker) :
  identity m = cam_fov_identity -> seq (header m) = seq Header0 ->
  own_publication ("visualization_marker", m).
Proof.
  intros Hi Hs. unfold own_publication. cbn [fst snd].
  rewrite Hi. repeat split; [right; left; reflexivity | exact Hs].
Qed.

Lemma own_arrow (m : Marker) :
  identity m = arrow_identity -> seq (header m) = seq Header0 ->
  own_publication ("visualization_marker", m).
Proof.
  intros Hi Hs. unfold own_publication. cbn [fst snd].
  rewrite Hi. repeat split; [right; right; left; reflexivity | exact Hs].
Qed.

(** What one delivery adds to the topic. *)
Lemma cam_callback_publications (w : World)
    (cam : RegionOfInterestWithCovarianceStamped) :
  exists new,
    published (snd (state_of (CamVizHandler.callback tan atan cam
                                (CamVizHandler.__init__, w))))
    = (published w ++ new)%list
    /\ Forall own_publication new.
Proof.
  pose proof (cam_callback_run tan atan w cam) as Hrun.
  destruct (next_answer w "fake_apple" "fake_grabber") as [e | resp].
  - rewrite Hrun. exists []. split; [| constructor].
    cbn [state_of snd called published]. now rewrite app_nil_r.
  - destruct Hrun as (box & cone & w' & _ & Hcb & Hpub & Hib & Hic & Hsb & Hsc).
    rewrite Hcb. eexists. split; [exact Hpub |].
    constructor; [now apply own_cam_box |].
    constructor; [now apply own_cam_fov | constructor].
Qed.

Lemma kalman_callback_publications (w : World)
    (res : PointWithCovarianceStamped) :
  exists new,
    published (snd (state_of (KalmanVizHandler.callback res
                                (KalmanVizHandler.__init__, w))))
    = (published w ++ new)%list
    /\ Forall own_publication new.
Proof.
  pose proof (kalman_callback_run w res) as Hrun. cbv zeta in Hrun.
  destruct (next_answer w "apple" "fake_grabber") as [e | resp].
  - rewrite Hrun. exists []. split; [| constructor].
    destruct (isinstance_Exception e);
      cbn [state_of snd called published]; now rewrite app_nil_r.
  - destruct (magnitude_overflows _).
    + rewrite Hrun. exists []. split; [| constructor].
      cbn [state_of snd called published]. now rewrite app_nil_r.
    + destruct Hrun as (arrow & w' & Hcb & Hpub & _ & _ & Hi & _ & _ & Hs & _).
      rewrite Hcb. eexists. split; [exact Hpub |].
      constructor; [now apply own_arrow | constructor].
Qed.

(** The handlers stay as [main] made them, and the topic grows by
    publications of the program only. *)
Lemma spin_invariant (msgs : list Node.message) (p0 : Node.t) :
  Node.main_proc p0 = CamVizHandler.__init__ ->
  Node.kal_proc p0 = KalmanVizHandler.__init__ ->
  let p := Node.spin tan atan p0 msgs in
  Node.main_proc p = CamVizHandler.__init__
  /\ Node.kal_proc p = KalmanVizHandler.__init__
  /\ logged (Node.world p) = logged (Node.world p0)
  /\ exists new,
       published (Node.world p) = (published (Node.world p0) ++ new)%list
       /\ Forall own_publication new.
Proof.
  unfold Node.spin. revert p0.
  induction msgs as [| m msgs IH]; intros p0 Hm Hk; cbn zeta.
  - cbn [fold_left]. repeat split; auto.
    exists []. split; [now rewrite app_nil_r | constructor].
  - cbn [fold_left].
    set (p1 := Node.deliver tan atan p0 m).
    assert (H1 : Node.main_proc p1 = CamVizHandler.__init__
                 /\ Node.kal_proc p1 = KalmanVizHandler.__init__
                 /\ logged (Node.world p1) = logged (Node.world p0)
                 /\ exists new,
                      published (Node.world p1)
                      = (published (Node.world p0) ++ new)%list
                      /\ Forall own_publication new).
    { subst p1. destruct m as [cam | res]; cbn [Node.deliver Node.main_proc
        Node.kal_proc Node.world].
      - split; [| split; [exact Hk | split]].
        + transitivity (Node.main_proc p0); [| exact Hm].
          apply (cam_callback_keeps_self tan atan cam
                   (Node.main_proc p0, Node.world p0)).
        + apply (cam_callback_keeps_log tan atan cam (Node.main_proc p0, Node.world p0)).
        + rewrite Hm. apply cam_callback_publications.
      - split; [exact Hm | split; [| split]].
        + transitivity (Node.kal_proc p0); [| exact Hk].
          apply (kalman_callback_keeps_self res
                   (Node.kal_proc p0, Node.world p0)).
        + apply (kalman_callback_keeps_log res (Node.kal_proc p0, Node.world p0)).
        + rewrite Hk. apply kalman_callback_publications. }
    destruct H1 as (Hm1 & Hk1 & Hl1 & new1 & Hp1 & Hf1).
    destruct (IH p1 Hm1 Hk1) as (Hm2 & Hk2 & Hl2 & new2 & Hp2 & Hf2).
    split; [exact Hm2 | split; [exact Hk2 | split]].
    + now rewrite Hl2.
    + exists (new1 ++ new2)%list. split.
      * now rewrite Hp2, Hp1, app_assoc.
      * apply Forall_app. auto.
Qed.

End NodeFacts.

(** ** The claims on the callbacks and the node *)

Section NodeClaims.

Local Open Scope float_scope.

(** Where C4 holds: an exception of the transform service, of whatever
    subclass of [Exception], ends the callback in silence: it returns, and
    nothing is published or logged. *)
Lemma kalman_callback_swallows (w : World) (res : PointWithCovarianceStamped)
    (e : exn) :
  next_answer w "apple" "fake_grabber" = inl e ->
  isinstance_Exception e = true ->
  exists s',
    KalmanVizHandler.callback res (KalmanVizHandler.__init__, w) = Returned tt s'
    /\ published (snd s') = published w
    /\ logged (snd s') = logged w.
Proof.
  intros Hans He. pose proof (kalman_callback_run w res) as Hrun.
  cbv zeta in Hrun. rewrite Hans, He in Hrun.
  eexists. split; [exact Hrun |]. split; reflexivity.
Qed.

(** Where C4 holds: when the service answers and no square overflows, the
    callback publishes one marker, a single segment from the origin to the
    translation, in the frame fake_grabber; the marker holds nothing of
    the magnitude. *)
Lemma kalman_callback_publishes_arrow (w : World)
    (res : PointWithCovarianceStamped) (resp : Tf2TransformResponse) :
  next_answer w "apple" "fake_grabber" = inr resp ->
  magnitude_overflows (translation (transform (resp_transform resp))) = false ->
  exists arrow s',
    KalmanVizHandler.callback res (KalmanVizHandler.__init__, w) = Returned tt s'
    /\ published (snd s')
       = (published w ++ [("visualization_marker", arrow)])%list
    /\ segments (points arrow)
       = [(Build_Point 0 0 0,
           Point_of_Vector3 (translation (transform (resp_transform resp))))]
    /\ header_frame_id (header arrow) = "fake_grabber"
    /\ identity arrow = arrow_identity.
Proof.
  intros Hans Hov. pose proof (kalman_callback_run w res) as Hrun.
  cbv zeta in Hrun. rewrite Hans, Hov in Hrun.
  destruct Hrun as (arrow & w' & Hcb & Hpub & _ & Hpts & Hi & _ & Hf & _).
  exists arrow, (KalmanVizHandler.__init__, w').
  split; [exact Hcb |]. split; [exact Hpub |].
  split; [now rewrite Hpts |]. split; assumption.
Qed.

(** C4 fails on the code: the transform service answers with the
    translation (1e200, 0, 0); squaring its first component for the
    magnitude raises [OverflowError], which leaves the callback; nothing
    is published. *)
Theorem C4_overflow_escapes_kalman_callback
    (res : PointWithCovarianceStamped) :
  let w := fresh_world (inr (response_at 1e200 0 0)) in
  next_answer w "apple" "fake_grabber" = inr (response_at 1e200 0 0)
  /\ exists s',
       KalmanVizHandler.callback res (KalmanVizHandler.__init__, w)
       = Raised (OverflowError "Numerical result out of range") s'
       /\ published (snd s') = [].
Proof.
  intros w. split; [reflexivity |].
  pose proof (kalman_callback_run w res) as Hrun. cbv zeta in Hrun.
  change (next_answer w "apple" "fake_grabber")
    with (@inr exn _ (response_at 1e200 0 0)) in Hrun.
  cbv iota beta in Hrun.
  change (magnitude_overflows
            (translation (transform (resp_transform (response_at 1e200 0 0)))))
    with true in Hrun.
  cbv iota in Hrun.
  eexists. split; [exact Hrun | reflexivity].
Qed.

Variables tan atan : float -> float.

(** The sequence numbers that go out on one topic count its messages. *)
Lemma serialised_from_seqs (t : string) (l : list (string * Marker)) :
  Forall (fun tm => fst tm = t) l ->
  forall sent,
    map (fun tm => seq (header (snd tm))) (serialised_from sent l)
    = map (fun k => (sent t + Z.of_nat k)%Z) (List.seq 1 (List.length l)).
Proof.
  induction 1 as [| tm l Ht _ IH]; intros sent; [reflexivity |].
  cbn [serialised_from List.length List.seq map fst snd].
  f_equal.
  - rewrite Ht. reflexivity.
  - rewrite IH, Ht, String.eqb_refl, <- (seq_shift (List.length l) 1).
    rewrite map_map.
    apply map_ext. intros k. lia.
Qed.

(** C10, amended: neither callback changes the object it is called on, so
    the counter of [HeaderCalc] stays where it is, whereas a call of the
    generator would have moved it; through the life of the node the
    counter is 0, and every marker is handed to the publisher with the
    default [seq] of a header, and none with a number of the generator.
    What goes out is another matter: started with nothing sent, the topic
    carries the count of its messages, 1, 2, 3 and so on, which the
    publisher writes. *)
Theorem C10_header_generator_never_used :
  (forall cam s,
     fst (state_of (CamVizHandler.callback tan atan cam s)) = fst s)
  /\ (forall res s,
        fst (state_of (KalmanVizHandler.callback res s)) = fst s)
  /\ (forall s,
        HeaderCalc._seq (fst (state_of (HeaderCalc.get_header s)))
        <> HeaderCalc._seq (fst s))
  /\ (forall w msgs,
        let p := Node.spin tan atan (Node.start w) msgs in
        HeaderCalc._seq (CamVizHandler._header (Node.main_proc p)) = 0%Z
        /\ (forall tm,
              In tm (published (Node.world p)) ->
              In tm (published w) \/ seq (header (snd tm)) = seq Header0)
        /\ (published w = [] ->
            map (fun tm => seq (header (snd tm)))
                (serialised (published (Node.world p)))
            = map Z.of_nat
                  (List.seq 1 (List.length (published (Node.world p)))))).
Proof.
  split; [| split; [| split]].
  - intros cam s. apply (cam_callback_keeps_self tan atan cam s).
  - intros res s. apply (kalman_callback_keeps_self res s).
  - intros s. rewrite get_header_seq_after. unfold next_seq.
    destruct (Z.geb_spec (HeaderCalc._seq (fst s)) 4294967295); lia.
  - intros w msgs.
    destruct (spin_invariant tan atan msgs (Node.start w) eq_refl eq_refl)
      as (Hm & _ & _ & new & Hpub & Hown).
    cbv zeta. split; [now rewrite Hm |].
    cbn [Node.start Node.world] in Hpub. rewrite Hpub.
    split.
    + intros tm Htm.
      apply in_app_or in Htm. destruct Htm as [Hold | Hnew]; [now left | right].
      rewrite Forall_forall in Hown.
      now destruct (Hown tm Hnew) as (_ & _ & Hs).
    + intros Hw. rewrite Hw. cbn [app]. unfold serialised.
      rewrite (serialised_from_seqs "visualization_marker").
      * apply map_ext. intros k. reflexivity.
      * eapply Forall_impl; [| exact Hown]. now intros tm (Ht & _).
Qed.

End NodeClaims.

(** C10, as stated, fails: in a world where the transform service answers
    (0, 0, 1), the marker of one estimate goes out with the sequence
    number 1, the publisher's count, and not with the default 0. *)
Lemma C10_counterexample :
  ~ (forall (tan atan : float -> float) (w : World)
            (msgs : list Node.message) (tm : string * Marker),
       published w = [] ->
       In tm (serialised
                (published
                   (Node.world (Node.spin tan atan (Node.start w) msgs)))) ->
       seq (header (snd tm)) = seq Header0).
Proof.
  intros H.
  set (w := fresh_world (inr (response_at 0 0 1))).
  set (res := {| est_point := Point0 |}).
  destruct (kalman_callback_publishes_arrow w res (response_at 0 0 1)
              eq_refl eq_refl)
    as (arrow & s' & Hcb & Hpub & _).
  specialize (H sample_tan sample_atan w [Node.est_apple_pos res]
                ("visualization_marker", serialize_message 1 arrow) eq_refl).
  unfold Node.spin in H.
  cbn [fold_left Node.deliver Node.start Node.kal_proc Node.world] in H.
  rewrite Hcb in H. cbn [state_of Node.world] in H. rewrite Hpub in H.
  specialize (H (or_introl eq_refl)). discriminate H.
Qed.

(** C10 for a detection and then an estimate, the transform service
    answering (0, 0, 1): three markers are handed over, each with the
    default [seq], and go out numbered 1, 2 and 3. *)
Lemma C10_witness :
  let w := fresh_world (inr (response_at 0 0 1)) in
  let p := Node.spin sample_tan sample_atan (Node.start w)
             [ Node.apple_camera full_frame;
               Node.est_apple_pos {| est_point := Point0 |} ] in
  HeaderCalc._seq (CamVizHandler._header (Node.main_proc p)) = 0%Z
  /\ map (fun tm => seq (header (snd tm))) (published (Node.world p))
     = [0%Z; 0%Z; 0%Z]
  /\ map (fun tm => seq (header (snd tm)))
         (serialised (published (Node.world p)))
     = [1%Z; 2%Z; 3%Z].
Proof.
  intros w p.
  destruct (C10_header_generator_never_used sample_tan sample_atan)
    as (_ & _ & _ & H).
  destruct (H w [ Node.apple_camera full_frame;
                  Node.est_apple_pos {| est_point := Point0 |} ])
    as (Hc & _ & Hs).
  split; [exact Hc |].
  split; [vm_compute; reflexivity |].
  fold p in Hs. rewrite (Hs eq_refl). vm_compute. reflexivity.
Defined.

(** ** The identities of the markers *)

Section Identities.

Local Open Scope float_scope.

(** Whatever the node emits has one of the three identities. *)
Lemma emits_identities (tan atan : float -> float) (i : string * Z) :
  emits tan atan i -> In i identities.
Proof.
  intros (w & msgs & m & Hw & Hin & Hi).
  destruct (spin_invariant tan atan msgs (Node.start w) eq_refl eq_refl)
    as (_ & _ & _ & new & Hpub & Hown).
  rewrite Hpub in Hin. cbn [Node.start Node.world] in Hin.
  rewrite Hw in Hin. cbn [app] in Hin.
  rewrite Forall_forall in Hown.
  destruct (Hown _ Hin) as (_ & Hid & _). cbn [snd] in Hid. now rewrite <- Hi.
Qed.

(** A detection, once the transform service answers, brings out the box
    and the cone. *)
Lemma emits_cam (tan atan : float -> float) :
  emits tan atan cam_box_identity /\ emits tan atan cam_fov_identity.
Proof.
  set (w := fresh_world (inr (response_at 0 0 1))).
  pose proof (cam_callback_run tan atan w full_frame) as Hrun.
  change (next_answer w "fake_apple" "fake_grabber")
    with (@inr exn _ (response_at 0 0 1)) in Hrun.
  cbv iota beta in Hrun.
  destruct Hrun as (box & cone & w' & _ & Hcb & Hpub & Hib & Hic & _).
  assert (Hp : published (Node.world
                 (Node.spin tan atan (Node.start w) [Node.apple_camera full_frame]))
               = [("visualization_marker", box); ("visualization_marker", cone)]).
  { unfold Node.spin. cbn [fold_left Node.deliver Node.start Node.main_proc
      Node.world]. rewrite Hcb. cbn [state_of snd Node.world]. exact Hpub. }
  split.
  - exists w, [Node.apple_camera full_frame], box.
    split; [reflexivity |]. rewrite Hp. split; [now left | exact Hib].
  - exists w, [Node.apple_camera full_frame], cone.
    split; [reflexivity |]. rewrite Hp. split; [right; now left | exact Hic].
Qed.

(** An estimate, once the transform service answers, brings out the
    arrow. *)
Lemma emits_arrow (tan atan : float -> float) :
  emits tan atan arrow_identity.
Proof.
  set (w := fresh_world (inr (response_at 0 0 1))).
  set (res := {| est_point := Point0 |}).
  destruct (kalman_callback_publishes_arrow w res (response_at 0 0 1)
              eq_refl eq_refl)
    as (arrow & s' & Hcb & Hpub & _ & _ & Hi).
  exists w, [Node.est_apple_pos res], arrow.
  split; [reflexivity |]. split; [| exact Hi].
  unfold Node.spin. cbn [fold_left Node.deliver Node.start Node.kal_proc
    Node.world]. rewrite Hcb. cbn [state_of Node.world]. rewrite Hpub.
  now left.
Qed.

Lemma identities_NoDup : NoDup identities.
Proof.
  unfold identities, cam_box_identity, cam_fov_identity, arrow_identity.
  repeat constructor; cbn [In]; intuition discriminate.
Qed.

(** C7, as stated, fails: no four distinct identities are emitted,
    whatever the C library. *)
Lemma C7_counterexample :
  ~ (exists (tan atan : float -> float) (l : list (string * Z)),
       NoDup l /\ List.length l = 4%nat
       /\ forall i, In i l -> emits tan atan i).
Proof.
  intros (tan & atan & l & Hnd & Hlen & Hem).
  assert (Hincl : incl l identities).
  { intros i Hi. apply (emits_identities tan atan), Hem, Hi. }
  pose proof (NoDup_incl_length Hnd Hincl) as Hle.
  rewrite Hlen in Hle. cbn in Hle. lia.
Qed.

(** C7, amended: the identities emitted on the drawing topic are three,
    all distinct: the camera box, the camera cone and the estimate arrow,
    each with id 0 in a namespace of its own. *)
Theorem C7_three_identities (tan atan : float -> float) :
  (forall i, emits tan atan i <-> In i identities)
  /\ identities = [ ("applevision_cam_box", 0%Z);
                    ("applevision_cam_fov", 0%Z);
                    ("applevision_arrow", 0%Z) ]
  /\ NoDup identities
  /\ NoDup (map fst identities)
  /\ List.length identities = 3%nat.
Proof.
  split; [| split; [reflexivity | split; [apply identities_NoDup | split]]].
  - intros i. split; [apply emits_identities |].
    intros [<- | [<- | [<- | []]]].
    + apply emits_cam.
    + apply emits_cam.
    + apply emits_arrow.
  - cbn. repeat constructor; cbn [In]; intuition discriminate.
  - reflexivity.
Qed.

End Identities.

(** ** Zero distance and zero field of view *)

Section Degenerate.

Import CamVizHandler.
Local Open Scope float_scope.

Variables tan atan : float -> float.









(** The half-extent of a field of view of angle zero. *)
Lemma half_extent_zero_fov (D ratio : float) :
  (forall v, is_zero v = true -> is_zero (atan v) = true) ->
  (forall v, is_zero v = true -> is_zero (tan v) = true) ->
  is_finite D = true -> is_zero ratio = true ->
  is_zero (D * tan (2 * atan ratio / 2)) = true.
Proof.
  intros Hatan Htan HD Hr.
  apply mul_zero_r; [exact HD |].
  apply Htan, div_zero_l; [| reflexivity | reflexivity].
  apply mul_zero_r; [reflexivity |]. now apply Hatan.
Qed.
















End Degenerate.

Section DegenerateExample.

Local Open Scope float_scope.





End DegenerateExample.

(** * Further properties *)

(** ** HeaderCalc: headers over a run of calls *)

Section HeaderCalcRuns.

Import HeaderCalc.

(** One call, in full: the header it returns and the state it leaves. *)
Lemma get_header_state (self : HeaderCalc.t) (w : World) :
  get_header (self, w)
  = Returned {| seq := _seq self; stamp := clock w (ticks w);
                header_frame_id := frame_id self |}
             ({| frame_id := frame_id self; _seq := next_seq (_seq self) |},
              tick w).
Proof.
  unfold get_header, bind, lift, get_rostime, get_self, put_self, ret, next_seq.
  cbn [fst snd]. destruct (_seq self >=? 4294967295)%Z; reflexivity.
Qed.

(** The world after [n] calls: the clock has been read [n] times, and
    nothing else has happened. *)
Lemma after_world (n : N) (f : string) (w : World) :
  let w' := snd (after n (__init__ f, w)) in
  clock w' = clock w
  /\ ticks w' = (ticks w + N.to_nat n)%nat
  /\ calls w' = calls w
  /\ published w' = published w
  /\ logged w' = logged w.
Proof.
  induction n as [| n IH] using N.peano_ind; cbv zeta.
  - cbn. repeat split. lia.
  - rewrite after_succ.
    destruct (after n (__init__ f, w)) as [self w1]. cbn [snd] in IH.
    destruct IH as (Hc & Ht & Hs & Hp & Hl).
    rewrite get_header_state. cbn [state_of snd tick clock ticks calls
      published logged].
    rewrite Hc, Ht, Hs, Hp, Hl, N2Nat.inj_succ. repeat split. lia.
Qed.

(** X1: from a fresh object, the sequence numbers of any two calls less
    than 4294967296 calls apart differ, and a call 4294967296 calls later
    gets the same number again. *)
Theorem X1_seq_distinct_within_period (i j : N) (f : string) (w : World) :
  (1 <= i)%N -> (i < j)%N -> (j - i < 4294967296)%N ->
  exists hi hj hk si sj sk,
    nth_call i (__init__ f, w) = Returned hi si
    /\ nth_call j (__init__ f, w) = Returned hj sj
    /\ nth_call (i + 4294967296) (__init__ f, w) = Returned hk sk
    /\ seq hi <> seq hj
    /\ seq hk = seq hi.
Proof.
  intros Hi Hij Hwin.
  assert (Hnth : forall n, (1 <= n)%N ->
            exists h s, nth_call n (__init__ f, w) = Returned h s
                        /\ seq h = ((Z.of_N n - 1) mod 4294967296)%Z).
  { intros n Hn. unfold nth_call.
    pose proof (after_seq (N.pred n) f w) as Hseq.
    destruct (after (N.pred n) (__init__ f, w)) as [self w0].
    cbn [fst] in Hseq. rewrite get_header_state.
    do 2 eexists. split; [reflexivity |]. cbn [seq]. rewrite Hseq.
    f_equal. lia. }
  destruct (Hnth i Hi) as (hi & si & Ei & Hsi).
  destruct (Hnth j ltac:(lia)) as (hj & sj & Ej & Hsj).
  destruct (Hnth (i + 4294967296)%N ltac:(lia)) as (hk & sk & Ek & Hsk).
  exists hi, hj, hk, si, sj, sk.
  split; [exact Ei |]. split; [exact Ej |]. split; [exact Ek |].
  split.
  - rewrite Hsi, Hsj. intros Heq.
    assert (Hd : ((Z.of_N j - 1 - (Z.of_N i - 1)) mod 4294967296 = 0)%Z).
    { rewrite Zminus_mod, <- Heq, Z.sub_diag. reflexivity. }
    rewrite Z.mod_small in Hd by lia. lia.
  - rewrite Hsk, Hsi, N2Z.inj_add.
    replace (Z.of_N i + Z.of_N 4294967296 - 1)%Z
      with (Z.of_N i - 1 + 1 * 4294967296)%Z by lia.
    apply Z_mod_plus_full.
Qed.

(** X1 for the calls 4294967295 and 4294967296 of a fresh object. *)
Lemma X1_witness :
  exists hi hj hk si sj sk,
    nth_call 4294967295 (__init__ "fake_grabber", fresh_world (inl SystemExit))
    = Returned hi si
    /\ nth_call 4294967296 (__init__ "fake_grabber", fresh_world (inl SystemExit))
       = Returned hj sj
    /\ nth_call (4294967295 + 4294967296)
                (__init__ "fake_grabber", fresh_world (inl SystemExit))
       = Returned hk sk
    /\ seq hi <> seq hj
    /\ seq hk = seq hi.
Proof.
  apply (X1_seq_distinct_within_period 4294967295 4294967296); lia.
Defined.

(** X2: the [n]-th header of a fresh object carries the frame given at
    construction and the [n]-th reading of the clock; by then the clock
    has been read [n] times, no service has been called and nothing has
    been published or logged. *)
Theorem X2_header_frame_and_stamp (n : N) (f : string) (w : World) :
  (1 <= n)%N ->
  exists h self' w',
    nth_call n (__init__ f, w) = Returned h (self', w')
    /\ header_frame_id h = f
    /\ stamp h = clock w (ticks w + N.to_nat n - 1)%nat
    /\ frame_id self' = f
    /\ clock w' = clock w
    /\ ticks w' = (ticks w + N.to_nat n)%nat
    /\ calls w' = calls w
    /\ published w' = published w
    /\ logged w' = logged w.
Proof.
  intros Hn. unfold nth_call.
  pose proof (after_world (N.pred n) f w) as Hw. cbv zeta in Hw.
  assert (Hf : frame_id (fst (after (N.pred n) (__init__ f, w))) = f).
  { generalize (N.pred n). intros k.
    induction k as [| k IH] using N.peano_ind; [reflexivity |].
    rewrite after_succ.
    destruct (after k (__init__ f, w)) as [self0 w0].
    rewrite get_header_state. exact IH. }
  destruct (after (N.pred n) (__init__ f, w)) as [self w0].
  cbn [fst snd] in Hw, Hf.
  destruct Hw as (Hc & Ht & Hs & Hp & Hl).
  rewrite get_header_state. do 3 eexists. split; [reflexivity |].
  cbn [header_frame_id stamp frame_id tick clock ticks calls published logged].
  rewrite Hc, Ht, Hs, Hp, Hl, Hf.
  repeat split; try reflexivity.
  - f_equal. lia.
  - rewrite N2Nat.inj_pred in *. lia.
Qed.

(** X2 for the third call. *)
Lemma X2_witness :
  exists h self' w',
    nth_call 3 (__init__ "fake_grabber", fresh_world (inl SystemExit))
    = Returned h (self', w')
    /\ header_frame_id h = "fake_grabber"
    /\ ticks w' = 3%nat
    /\ published w' = [].
Proof.
  destruct (X2_header_frame_and_stamp 3 "fake_grabber"
              (fresh_world (inl SystemExit)) ltac:(lia))
    as (h & self' & w' & E & Hf & _ & _ & _ & Ht & _ & Hp & _).
  exists h, self', w'. repeat split; assumption.
Defined.

End HeaderCalcRuns.

(** ** The callbacks, in full *)

Section CallbacksInFull.

Local Open Scope float_scope.

Lemma skipn_length_app {A} (l l' : list A) :
  skipn (List.length l) (l ++ l')%list = l'.
Proof. induction l as [| v l IH]; [reflexivity | exact IH]. Qed.

Lemma newly_published_nil {O A} (s : O * World) (o : outcome (O * World) A) :
  published (snd (state_of o)) = published (snd s) ->
  newly_published s o = [].
Proof.
  intros H. unfold newly_published. rewrite H. apply skipn_all.
Qed.

Lemma newly_published_app {O A} (s : O * World) (o : outcome (O * World) A)
    (new : list (string * Marker)) :
  published (snd (state_of o)) = (published (snd s) ++ new)%list ->
  newly_published s o = new.
Proof.
  intros H. unfold newly_published. rewrite H. apply skipn_length_app.
Qed.

(** [KalmanVizHandler.callback] on a handler as the class makes it, with
    the state it leaves. *)
Lemma kalman_callback_state (w : World) (res : PointWithCovarianceStamped) :
  let s := (KalmanVizHandler.__init__, w) in
  let s1 := (KalmanVizHandler.__init__, called w) in
  match next_answer w "apple" "fake_grabber" with
  | inl e =>
    KalmanVizHandler.callback res s
    = if isinstance_Exception e then Returned tt s1 else Raised e s1
  | inr resp =>
    let t := translation (transform (resp_transform resp)) in
    if magnitude_overflows t
    then KalmanVizHandler.callback res s
         = Raised (OverflowError "Numerical result out of range") s1
    else exists arrow w',
        KalmanVizHandler.callback res s
        = Returned tt (KalmanVizHandler.__init__, w')
        /\ published w'
           = (published w ++ [("visualization_marker", arrow)])%list
        /\ clock w' = clock w
        /\ ticks w' = Datatypes.S (ticks w)
        /\ calls w' = Datatypes.S (calls w)
        /\ logged w' = logged w
        /\ stamp (header arrow) = clock w (ticks w)
        /\ points arrow = [Build_Point 0 0 0; Point_of_Vector3 t]
        /\ identity arrow = arrow_identity
        /\ seq (header arrow) = seq Header0
        /\ header_frame_id (header arrow) = "fake_grabber"
        /\ drawable arrow
  end.
Proof.
  intros s s1. pose proof (kalman_callback_run w res) as Hrun.
  cbv zeta in Hrun. fold s s1 in Hrun.
  destruct (next_answer w "apple" "fake_grabber") as [e | resp] eqn:Hans;
    [exact Hrun |].
  cbv zeta.
  set (t := translation (transform (resp_transform resp))) in *.
  destruct (magnitude_overflows t) eqn:Hov; [exact Hrun |].
  clear Hrun.
  assert (Hstart :
    forall k : option Tf2TransformResponse -> M _ unit,
      bind (try_except_Exception
              (bind (lift (call (KalmanVizHandler.tf_get KalmanVizHandler.__init__)
                             "apple" "fake_grabber" Time0 Time0))
                    (fun d => ret (Some d)))
              (ret None)) k s
      = k (Some resp) s1).
  { intros k. unfold bind, try_except_Exception, lift, call, ret, s.
    cbn [fst snd KalmanVizHandler.tf_get KalmanVizHandler.__init__ service].
    unfold next_answer in Hans. rewrite Hans. reflexivity. }
  unfold magnitude_overflows in Hov.
  apply orb_false_iff in Hov. destruct Hov as [Hov Hz].
  apply orb_false_iff in Hov. destruct Hov as [Hx Hy].
  unfold KalmanVizHandler.callback, s.
  erewrite bind_Returned by reflexivity.
  cbn [fst]. fold s. rewrite Hstart. fold t.
  erewrite bind_Returned by (rewrite float_pow2_run, Hx; reflexivity).
  erewrite bind_Returned by (rewrite float_pow2_run, Hy; reflexivity).
  erewrite bind_Returned by (rewrite float_pow2_run, Hz; reflexivity).
  erewrite bind_Returned
    by (apply math_sqrt_run; repeat apply add_not_negative;
        apply pow2_value_not_negative).
  unfold bind, lift, Time_now, get_rostime, publish, s1.
  cbn [fst snd KalmanVizHandler.p_out KalmanVizHandler.__init__ topic].
  do 2 eexists. split; [reflexivity |].
  unfold drawable.
  cbn [published logged clock ticks calls points identity ns id mtype action
       header header_frame_id stamp seq pose orientation color a called
       List.length].
  repeat (split; [reflexivity |]).
  split; left; reflexivity.
Qed.

(** X3: when the transform service raises, [KalmanVizHandler.callback]
    returns if the exception is an instance of [Exception] and lets it
    through if it is not ([KeyboardInterrupt], [SystemExit]); either way
    the service has been called once and nothing else has happened: no
    publication, no reading of the clock, no line in the log. *)
Theorem X3_kalman_exception_filter (w : World)
    (res : PointWithCovarianceStamped) (e : exn) :
  next_answer w "apple" "fake_grabber" = inl e ->
  let o := KalmanVizHandler.callback res (KalmanVizHandler.__init__, w) in
  o = (if isinstance_Exception e
       then Returned tt (KalmanVizHandler.__init__, called w)
       else Raised e (KalmanVizHandler.__init__, called w))
  /\ newly_published (KalmanVizHandler.__init__, w) o = []
  /\ ticks (snd (state_of o)) = ticks w
  /\ calls (snd (state_of o)) = Datatypes.S (calls w)
  /\ logged (snd (state_of o)) = logged w.
Proof.
  intros Hans o. pose proof (kalman_callback_state w res) as Hrun.
  cbv zeta in Hrun. rewrite Hans in Hrun. subst o. rewrite Hrun.
  split; [reflexivity |].
  split; [apply newly_published_nil |];
    destruct (isinstance_Exception e); repeat split.
Qed.

(** X3 for an interruption from the keyboard, which goes through. *)
Lemma X3_witness :
  let w := fresh_world (inl KeyboardInterrupt) in
  let res := {| est_point := Point0 |} in
  KalmanVizHandler.callback res (KalmanVizHandler.__init__, w)
  = Raised KeyboardInterrupt (KalmanVizHandler.__init__, called w).
Proof.
  intros w res.
  exact (proj1 (X3_kalman_exception_filter w res KeyboardInterrupt eq_refl)).
Defined.

(** X4: when the transform service answers, [KalmanVizHandler.callback]
    publishes exactly when no square of a component of the translation
    overflows.  Then it returns, having published one marker, stamped with
    the one reading of the clock it takes, whose two points are the origin
    and the translation, NaN and infinite components included.  Otherwise
    it raises [OverflowError] before reading the clock, and publishes
    nothing.  The [ValueError] of [math.sqrt] never arises. *)
Theorem X4_kalman_publishes_unless_overflow (w : World)
    (res : PointWithCovarianceStamped) (resp : Tf2TransformResponse) :
  next_answer w "apple" "fake_grabber" = inr resp ->
  let t := translation (transform (resp_transform resp)) in
  let s := (KalmanVizHandler.__init__, w) in
  let o := KalmanVizHandler.callback res s in
  if magnitude_overflows t
  then raised_of o = Some (OverflowError "Numerical result out of range")
       /\ newly_published s o = []
       /\ ticks (snd (state_of o)) = ticks w
  else exists arrow,
      raised_of o = None
      /\ newly_published s o = [("visualization_marker", arrow)]
      /\ points arrow = [Build_Point 0 0 0; Point_of_Vector3 t]
      /\ stamp (header arrow) = clock w (ticks w)
      /\ ticks (snd (state_of o)) = Datatypes.S (ticks w).
Proof.
  intros Hans t s o. pose proof (kalman_callback_state w res) as Hrun.
  cbv zeta in Hrun. rewrite Hans in Hrun. fold t in Hrun.
  destruct (magnitude_overflows t).
  - subst o s. rewrite Hrun. split; [reflexivity |].
    split; [now apply newly_published_nil | reflexivity].
  - destruct Hrun as (arrow & w' & Hcb & Hpub & _ & Ht & _ & _ & Hst & Hpts & _).
    exists arrow. subst o s. rewrite Hcb.
    split; [reflexivity |].
    split; [now apply newly_published_app |].
    split; [exact Hpts |]. split; [exact Hst | exact Ht].
Qed.

(** X4 for a translation with an infinite component, which is published,
    and one with a large finite component, which is not. *)
Lemma X4_witness :
  (exists arrow,
     newly_published
       (KalmanVizHandler.__init__, fresh_world (inr (response_at infinity 0 nan)))
       (KalmanVizHandler.callback {| est_point := Point0 |}
          (KalmanVizHandler.__init__,
           fresh_world (inr (response_at infinity 0 nan))))
     = [("visualization_marker", arrow)]
     /\ points arrow = [Build_Point 0 0 0; Build_Point infinity 0 nan])
  /\ newly_published
       (KalmanVizHandler.__init__, fresh_world (inr (response_at 0 (-1e160) 0)))
       (KalmanVizHandler.callback {| est_point := Point0 |}
          (KalmanVizHandler.__init__,
           fresh_world (inr (response_at 0 (-1e160) 0))))
     = [].
Proof.
  split.
  - pose proof (X4_kalman_publishes_unless_overflow
                  (fresh_world (inr (response_at infinity 0 nan)))
                  {| est_point := Point0 |} (response_at infinity 0 nan) eq_refl)
      as H.
    cbv zeta in H.
    change (magnitude_overflows
              (translation (transform (resp_transform (response_at infinity 0 nan)))))
      with false in H.
    cbv iota in H. destruct H as (arrow & _ & Hnew & Hpts & _).
    exists arrow. split; [exact Hnew | exact Hpts].
  - pose proof (X4_kalman_publishes_unless_overflow
                  (fresh_world (inr (response_at 0 (-1e160) 0)))
                  {| est_point := Point0 |} (response_at 0 (-1e160) 0) eq_refl)
      as H.
    cbv zeta in H.
    change (magnitude_overflows
              (translation (transform (resp_transform (response_at 0 (-1e160) 0)))))
      with true in H.
    cbv iota in H. exact (proj1 (proj2 H)).
Defined.

End CallbacksInFull.

(** ** CamVizHandler.callback on any handler *)

Section CameraInFull.

Local Open Scope float_scope.

Variables tan atan : float -> float.

(** [CamVizHandler.callback] whatever the attributes of the handler: what
    it does by the answer of the service and by the focal length. *)
Lemma cam_callback_state (self : CamVizHandler.t) (w : World)
    (cam : RegionOfInterestWithCovarianceStamped) :
  let o := CamVizHandler.callback tan atan cam (self, w) in
  match services w (service (CamVizHandler.tf_get self)) (calls w)
          "fake_apple" "fake_grabber" Time0 Time0 with
  | inl e => o = Raised e (self, called w)
  | inr resp =>
    if 2 * CamVizHandler.CAMERA_FOCAL self =? 0
    then o = Raised (ZeroDivisionError "float division by zero")
                    (self, called w)
    else exists box cone w',
        o = Returned tt (self, w')
        /\ published w'
           = (published w ++ [(topic (CamVizHandler.p_out self), box);
                              (topic (CamVizHandler.p_out self), cone)])%list
        /\ clock w' = clock w
        /\ ticks w' = Datatypes.S (Datatypes.S (ticks w))
        /\ calls w' = Datatypes.S (calls w)
        /\ logged w' = logged w
        /\ stamp (header cone) = clock w (ticks w)
        /\ stamp (header box) = clock w (Datatypes.S (ticks w))
        /\ identity box = cam_box_identity
        /\ identity cone = cam_fov_identity
        /\ List.length (points box) = 8%nat
        /\ List.length (points cone) = 16%nat
        /\ drawable box
        /\ drawable cone
  end.
Proof.
  cbv zeta.
  destruct (services w (service (CamVizHandler.tf_get self)) (calls w)
              "fake_apple" "fake_grabber" Time0 Time0) as [e | resp] eqn:Hans.
  - unfold CamVizHandler.callback, bind, get_self, lift, call.
    cbn [fst snd]. rewrite Hans. reflexivity.
  - assert (Hcall :
      lift (call (CamVizHandler.tf_get self) "fake_apple" "fake_grabber"
              Time0 Time0) (self, w)
      = Returned resp (self, called w)).
    { unfold lift, call. cbn [fst snd]. rewrite Hans. reflexivity. }
    unfold CamVizHandler.callback.
    erewrite bind_Returned by reflexivity. cbn [fst].
    erewrite bind_Returned by exact Hcall.
    destruct (2 * CamVizHandler.CAMERA_FOCAL self =? 0) eqn:Hf.
    + erewrite bind_Raised; [reflexivity |].
      unfold CamVizHandler.make_cam_fov_marker.
      erewrite bind_Returned by reflexivity. cbn [fst].
      erewrite bind_Raised; [reflexivity |].
      unfold truediv. rewrite Hf. reflexivity.
    + unfold CamVizHandler.make_cam_fov_marker, truediv, for_each, bind,
        get_self, lift, Time_now, get_rostime, publish, ret, raise.
      cbn [fst snd]. rewrite Hf. cbn [fst snd].
      do 3 eexists. split; [reflexivity |].
      unfold drawable.
      cbn [published logged clock ticks calls points identity ns id mtype
           action header header_frame_id stamp seq pose orientation color a
           called List.length].
      rewrite <- app_assoc. cbn [app].
      repeat (split; [reflexivity |]).
      split.
      * repeat (split; [reflexivity |]).
        split; [right; left; reflexivity | right; left; reflexivity].
      * repeat (split; [reflexivity |]).
        split; [right; right; left; reflexivity | left; reflexivity].
Qed.

(** X5: [CamVizHandler.callback] publishes both markers or none, whatever
    the attributes of the handler.  It returns after publishing the box
    and then the cone, or it raises having published nothing; it raises
    what the transform service raised or, the service having answered, a
    [ZeroDivisionError] for a focal length of zero.  The handler is as it
    was. *)
Theorem X5_camera_publishes_both_or_none (self : CamVizHandler.t) (w : World)
    (cam : RegionOfInterestWithCovarianceStamped) :
  let s := (self, w) in
  let o := CamVizHandler.callback tan atan cam s in
  let answer := services w (service (CamVizHandler.tf_get self)) (calls w)
                  "fake_apple" "fake_grabber" Time0 Time0 in
  fst (state_of o) = self
  /\ match raised_of o with
     | None =>
       exists box cone,
         newly_published s o
         = [(topic (CamVizHandler.p_out self), box);
            (topic (CamVizHandler.p_out self), cone)]
         /\ identity box = cam_box_identity
         /\ identity cone = cam_fov_identity
     | Some e =>
       newly_published s o = []
       /\ (answer = inl e
           \/ ((exists resp, answer = inr resp)
               /\ (2 * CamVizHandler.CAMERA_FOCAL self =? 0) = true
               /\ e = ZeroDivisionError "float division by zero"))
     end.
Proof.
  intros s o answer. pose proof (cam_callback_state self w cam) as Hrun.
  cbv zeta in Hrun. fold s o answer in Hrun.
  destruct answer as [e | resp] eqn:Hans.
  - rewrite Hrun. split; [reflexivity |]. cbn [raised_of].
    split; [now apply newly_published_nil | now left].
  - destruct (2 * CamVizHandler.CAMERA_FOCAL self =? 0) eqn:Hf.
    + rewrite Hrun. split; [reflexivity |]. cbn [raised_of].
      split; [now apply newly_published_nil |].
      right. split; [now exists resp | split; reflexivity].
    + destruct Hrun as (box & cone & w' & Ho & Hpub & _ & _ & _ & _ & _ & _
                        & Hib & Hic & _).
      rewrite Ho. split; [reflexivity |]. cbn [raised_of].
      exists box, cone. split; [| split; assumption].
      now apply newly_published_app.
Qed.

(** X6: when [CamVizHandler.callback] publishes, it has read the clock
    exactly twice and called the service once; the cone carries the first
    reading and the bounding box, though published first, the second.
    When it raises it has not read the clock. *)
Theorem X6_camera_stamps (self : CamVizHandler.t) (w : World)
    (cam : RegionOfInterestWithCovarianceStamped) :
  let s := (self, w) in
  let o := CamVizHandler.callback tan atan cam s in
  calls (snd (state_of o)) = Datatypes.S (calls w)
  /\ match raised_of o with
     | None =>
       ticks (snd (state_of o)) = Datatypes.S (Datatypes.S (ticks w))
       /\ map (fun tm => stamp (header (snd tm))) (newly_published s o)
          = [clock w (Datatypes.S (ticks w)); clock w (ticks w)]
       /\ map (fun tm => identity (snd tm)) (newly_published s o)
          = [cam_box_identity; cam_fov_identity]
     | Some _ => ticks (snd (state_of o)) = ticks w
     end.
Proof.
  intros s o. pose proof (cam_callback_state self w cam) as Hrun.
  cbv zeta in Hrun. fold s o in Hrun.
  destruct (services w (service (CamVizHandler.tf_get self)) (calls w)
              "fake_apple" "fake_grabber" Time0 Time0) as [e | resp].
  - rewrite Hrun. split; reflexivity.
  - destruct (2 * CamVizHandler.CAMERA_FOCAL self =? 0).
    + rewrite Hrun. split; reflexivity.
    + destruct Hrun as (box & cone & w' & Ho & Hpub & _ & Ht & Hc & _ & Hsc
                        & Hsb & Hib & Hic & _).
      rewrite Ho. cbn [state_of snd raised_of].
      split; [exact Hc |]. split; [exact Ht |].
      rewrite (newly_published_app s (Returned tt (self, w')) _ Hpub).
      cbn [map snd]. rewrite Hsb, Hsc, Hib, Hic. split; reflexivity.
Qed.

End CameraInFull.

(** ** The node over its life *)

Section NodeOverLife.

Local Open Scope float_scope.

Variables tan atan : float -> float.

(** What a publication of the node looks like to a viewer. *)
Let on_topic_drawable (tm : string * Marker) : Prop :=
  fst tm = "visualization_marker" /\ drawable (snd tm).

(** One delivery: one call of the service, as many readings of the clock
    as markers published, at most two for a detection and one for an
    estimate. *)
Lemma deliver_accounts (p0 : Node.t) (m : Node.message) :
  Node.main_proc p0 = CamVizHandler.__init__ ->
  Node.kal_proc p0 = KalmanVizHandler.__init__ ->
  let p := Node.deliver tan atan p0 m in
  Node.main_proc p = CamVizHandler.__init__
  /\ Node.kal_proc p = KalmanVizHandler.__init__
  /\ calls (Node.world p) = Datatypes.S (calls (Node.world p0))
  /\ clock (Node.world p) = clock (Node.world p0)
  /\ exists new,
       published (Node.world p) = (published (Node.world p0) ++ new)%list
       /\ Forall on_topic_drawable new
       /\ ticks (Node.world p) = (ticks (Node.world p0) + List.length new)%nat
       /\ (List.length new <= camera_count [m] * 2 + estimate_count [m])%nat.
Proof.
  intros Hm Hk. destruct p0 as [mp kp w0]. cbn [Node.main_proc Node.kal_proc
    Node.world] in *. subst mp kp.
  destruct m as [cam | res]; cbv zeta;
    cbn [Node.deliver Node.main_proc Node.kal_proc Node.world].
  - pose proof (cam_callback_state tan atan CamVizHandler.__init__ w0 cam)
      as Hrun. cbv zeta in Hrun.
    cbn [CamVizHandler.tf_get CamVizHandler.p_out CamVizHandler.__init__
         CamVizHandler.CAMERA_FOCAL service topic] in Hrun.
    rewrite class_focal_nonzero in Hrun.
    destruct (services w0 "Tf2Transform" (calls w0) "fake_apple" "fake_grabber"
                Time0 Time0) as [e | resp].
    + rewrite Hrun. cbn [state_of fst snd called calls clock ticks published].
      repeat (split; [reflexivity |]).
      exists []. rewrite app_nil_r. cbn.
      repeat split; [constructor | lia | lia].
    + destruct Hrun as (box & cone & w' & Ho & Hpub & Hcl & Ht & Hc & _ & _ & _
                        & _ & _ & _ & _ & Hdb & Hdc).
      rewrite Ho. cbn [state_of fst snd].
      repeat (split; [reflexivity || assumption |]).
      eexists. split; [exact Hpub |].
      split.
      { constructor; [split; [reflexivity | assumption] |].
        constructor; [split; [reflexivity | assumption] | constructor]. }
      cbn. split; lia.
  - pose proof (kalman_callback_state w0 res) as Hrun. cbv zeta in Hrun.
    destruct (next_answer w0 "apple" "fake_grabber") as [e | resp].
    + rewrite Hrun.
      destruct (isinstance_Exception e);
        cbn [state_of fst snd called calls clock ticks published];
        (repeat (split; [reflexivity |]));
        exists []; rewrite app_nil_r; cbn;
        (repeat split; [constructor | lia | lia]).
    + destruct (magnitude_overflows _).
      * rewrite Hrun.
        cbn [state_of fst snd called calls clock ticks published].
        repeat (split; [reflexivity |]).
        exists []. rewrite app_nil_r. cbn.
        repeat split; [constructor | lia | lia].
      * destruct Hrun as (arrow & w' & Ho & Hpub & Hcl & Ht & Hc & _ & _ & _ & _
                          & _ & _ & Hd).
        rewrite Ho. cbn [state_of fst snd].
        repeat (split; [reflexivity || assumption |]).
        eexists. split; [exact Hpub |].
        split.
        { constructor; [split; [reflexivity | assumption] | constructor]. }
        cbn. split; lia.
Qed.

Lemma camera_count_cons (m : Node.message) (msgs : list Node.message) :
  camera_count (m :: msgs) = (camera_count [m] + camera_count msgs)%nat.
Proof. unfold camera_count. cbn [filter]. now destruct m. Qed.

Lemma estimate_count_cons (m : Node.message) (msgs : list Node.message) :
  estimate_count (m :: msgs) = (estimate_count [m] + estimate_count msgs)%nat.
Proof. unfold estimate_count. cbn [filter]. now destruct m. Qed.

Lemma spin_accounts (msgs : list Node.message) (p0 : Node.t) :
  Node.main_proc p0 = CamVizHandler.__init__ ->
  Node.kal_proc p0 = KalmanVizHandler.__init__ ->
  let p := Node.spin tan atan p0 msgs in
  calls (Node.world p) = (calls (Node.world p0) + List.length msgs)%nat
  /\ clock (Node.world p) = clock (Node.world p0)
  /\ exists new,
       published (Node.world p) = (published (Node.world p0) ++ new)%list
       /\ Forall on_topic_drawable new
       /\ ticks (Node.world p) = (ticks (Node.world p0) + List.length new)%nat
       /\ (List.length new
           <= camera_count msgs * 2 + estimate_count msgs)%nat.
Proof.
  unfold Node.spin. revert p0.
  induction msgs as [| m msgs IH]; intros p0 Hm Hk; cbv zeta.
  - cbn [fold_left List.length]. split; [lia |]. split; [reflexivity |].
    exists []. rewrite app_nil_r. cbn. repeat split; [constructor | lia | lia].
  - cbn [fold_left].
    destruct (deliver_accounts p0 m Hm Hk)
      as (Hm1 & Hk1 & Hc1 & Hcl1 & new1 & Hp1 & Hf1 & Ht1 & Hl1).
    destruct (IH _ Hm1 Hk1) as (Hc2 & Hcl2 & new2 & Hp2 & Hf2 & Ht2 & Hl2).
    split; [rewrite Hc2, Hc1; cbn [List.length]; lia |].
    split; [now rewrite Hcl2 |].
    exists (new1 ++ new2)%list.
    split; [now rewrite Hp2, Hp1, app_assoc |].
    split; [now apply Forall_app |].
    rewrite length_app, camera_count_cons, estimate_count_cons.
    split; lia.
Qed.

(** X7: whatever messages arrive, the node leaves what was published
    before in place and adds, on the topic visualization_marker only,
    markers a viewer can draw: line lists to add, of id 0, with 2, 8 or 16
    points, the identity rotation, alpha 0.5, in the frame fake_grabber or
    fake_grabber_cam. *)
Theorem X7_node_publishes_drawable_markers (w : World)
    (msgs : list Node.message) :
  exists new,
    published (Node.world (Node.spin tan atan (Node.start w) msgs))
    = (published w ++ new)%list
    /\ Forall (fun tm => fst tm = "visualization_marker" /\ drawable (snd tm))
              new.
Proof.
  destruct (spin_accounts msgs (Node.start w) eq_refl eq_refl)
    as (_ & _ & new & Hp & Hf & _).
  exists new. split; [exact Hp | exact Hf].
Qed.

(** X8: over any messages the node calls the transform service once for
    each message, reads the clock once for each marker it publishes, and
    publishes at most two markers for each detection and one for each
    estimate. *)
Theorem X8_node_accounting (w : World) (msgs : list Node.message) :
  let w' := Node.world (Node.spin tan atan (Node.start w) msgs) in
  let published_by_node :=
    (List.length (published w') - List.length (published w))%nat in
  calls w' = (calls w + List.length msgs)%nat
  /\ ticks w' = (ticks w + published_by_node)%nat
  /\ (published_by_node <= camera_count msgs * 2 + estimate_count msgs)%nat
  /\ (List.length (published w) <= List.length (published w'))%nat
  /\ clock w' = clock w.
Proof.
  destruct (spin_accounts msgs (Node.start w) eq_refl eq_refl)
    as (Hc & Hcl & new & Hp & _ & Ht & Hl).
  cbn [Node.start Node.world] in *. cbv zeta.
  rewrite Hp, length_app.
  replace (List.length (published w) + List.length new
           - List.length (published w))%nat with (List.length new) by lia.
  repeat split; try assumption; lia.
Qed.

End NodeOverLife.

(** ** More of binary64: digits, shifts and the range of rounding *)

Section RoundingRange.

Local Open Scope Z_scope.

(** The number of digits of a positive mantissa is its binary logarithm
    plus one. *)
Lemma digits2_pos_size (p : positive) : digits2_pos p = Pos.size p.
Proof. induction p as [p IH | p IH |]; cbn; now rewrite ?IH. Qed.

Lemma Zdigits2_log2 (p : positive) :
  Zdigits2 (Z.pos p) = Z.log2 (Z.pos p) + 1.
Proof.
  cbn [Zdigits2]. rewrite digits2_pos_size.
  destruct p as [p | p |]; cbn [Pos.size Z.log2]; lia.
Qed.

Lemma Zdigits2_nonneg (m : Z) : 0 <= Zdigits2 m.
Proof. destruct m; cbn; lia. Qed.

(** The digits of a number not negative bound it. *)
Lemma Zdigits2_le (m : Z) (d : Z) :
  0 <= m -> 0 <= d -> m < 2 ^ d -> Zdigits2 m <= d.
Proof.
  intros Hm Hd Hlt. destruct m as [| p | p]; [cbn; lia | | lia].
  rewrite Zdigits2_log2.
  pose proof (Z.log2_lt_pow2 (Z.pos p) d ltac:(lia)) as [H _]. specialize (H Hlt). lia.
Qed.

Lemma Zdigits2_gt (m : Z) : 0 <= m -> m < 2 ^ Zdigits2 m.
Proof.
  intros Hm. destruct m as [| p | p]; [cbn; lia | | lia].
  rewrite Zdigits2_log2.
  pose proof (Z.log2_spec (Z.pos p) ltac:(lia)) as [_ H].
  now rewrite Z.add_1_r.
Qed.

Lemma Zdigits2_ge (p : positive) : 2 ^ (Zdigits2 (Z.pos p) - 1) <= Z.pos p.
Proof.
  rewrite Zdigits2_log2. replace (Z.log2 (Z.pos p) + 1 - 1) with (Z.log2 (Z.pos p)) by lia.
  apply (Z.log2_spec (Z.pos p)). lia.
Qed.

(** Shifting right by one halves the mantissa. *)
Lemma shr_1_div2 (mrs : shr_record) :
  0 <= shr_m mrs -> shr_m (shr_1 mrs) = Z.div2 (shr_m mrs).
Proof.
  destruct mrs as [m r s]. cbn [shr_m]. intros Hm.
  destruct m as [| [p | p |] | p]; cbn; lia || reflexivity.
Qed.

Lemma iter_shr_1_div (n : positive) (mrs : shr_record) :
  0 <= shr_m mrs ->
  shr_m (iter_pos shr_1 n mrs) = shr_m mrs / 2 ^ Z.pos n.
Proof.
  revert mrs. induction n as [n IH | n IH |]; intros mrs Hm; cbn [iter_pos].
  - rewrite IH by (apply iter_shr_1_nonneg, shr_1_nonneg, Hm).
    rewrite IH by (apply shr_1_nonneg, Hm).
    rewrite shr_1_div2 by exact Hm.
    rewrite Z.div2_div, !Z.div_div by lia.
    f_equal. rewrite <- !Z.pow_add_r, <- Z.pow_succ_r by lia. f_equal. lia.
  - rewrite IH by (apply iter_shr_1_nonneg, Hm).
    rewrite IH by exact Hm.
    rewrite Z.div_div by lia.
    f_equal. rewrite <- Z.pow_add_r by lia. f_equal. lia.
  - rewrite shr_1_div2 by exact Hm. now rewrite Z.div2_div.
Qed.

Lemma fexp_unfold (k : Z) : fexp prec emax k = Z.max (k - 53) (-1074).
Proof. reflexivity. Qed.

(** What the first step of rounding does to a mantissa not negative: the
    exponent rises to the one the format asks for, and the mantissa is
    divided accordingly. *)
Lemma shr_fexp_spec (m e : Z) (l : location) :
  0 <= m ->
  let e' := Z.max e (fexp prec emax (Zdigits2 m + e)) in
  snd (shr_fexp prec emax m e l) = e'
  /\ shr_m (fst (shr_fexp prec emax m e l)) = m / 2 ^ (e' - e).
Proof.
  intros Hm e'. unfold shr_fexp, shr.
  assert (H0 : shr_m (shr_record_of_loc m l) = m) by (destruct l as [| []]; reflexivity).
  destruct (fexp prec emax (Zdigits2 m + e) - e) as [| n | n] eqn:Hn;
    cbn [fst snd].
  - replace e' with e by lia. rewrite Z.sub_diag, Z.div_1_r. auto.
  - replace e' with (e + Z.pos n) by lia.
    rewrite iter_shr_1_div by lia. rewrite H0.
    split; [reflexivity |]. do 2 f_equal. lia.
  - replace e' with e by lia. rewrite Z.sub_diag, Z.div_1_r. auto.
Qed.

(** After that step the mantissa has at most 53 digits. *)
Lemma shr_fexp_digits (m e : Z) (l : location) :
  0 <= m ->
  0 <= shr_m (fst (shr_fexp prec emax m e l)) < 2 ^ 53.
Proof.
  intros Hm. destruct (shr_fexp_spec m e l Hm) as [_ Hq]. rewrite Hq.
  set (d := Zdigits2 m). set (e' := Z.max e (fexp prec emax (d + e))).
  pose proof (Zdigits2_gt m Hm) as Hlt. fold d in Hlt.
  pose proof (Zdigits2_nonneg m) as Hd. fold d in Hd.
  assert (Hk : 0 <= e' - e) by lia.
  assert (Hk' : d - 53 <= e' - e) by (subst e'; rewrite fexp_unfold; lia).
  split; [apply Z.div_pos; lia |].
  apply Z.div_lt_upper_bound; [lia |].
  rewrite <- Z.pow_add_r by lia.
  apply Z.lt_le_trans with (2 ^ d); [exact Hlt |].
  apply Z.pow_le_mono_r; lia.
Qed.

(** After that step the mantissa of a positive number whose exponent is
    not below the least one is still positive. *)
Lemma shr_fexp_pos (m e : Z) (l : location) :
  0 < m -> -1074 <= e ->
  0 < shr_m (fst (shr_fexp prec emax m e l)).
Proof.
  intros Hm He. destruct (shr_fexp_spec m e l ltac:(lia)) as [_ Hq]. rewrite Hq.
  destruct m as [| p | p]; try lia.
  set (d := Zdigits2 (Z.pos p)) in *.
  set (e' := Z.max e (fexp prec emax (d + e))).
  pose proof (Zdigits2_ge p) as Hge. fold d in Hge.
  assert (Hd : 1 <= d) by (subst d; rewrite Zdigits2_log2;
                           pose proof (Z.log2_nonneg (Z.pos p)); lia).
  assert (Hk : 0 <= e' - e <= d - 1)
    by (subst e'; rewrite fexp_unfold; lia).
  apply Z.div_str_pos. split; [lia |].
  apply Z.le_trans with (2 ^ (d - 1)); [| exact Hge].
  apply Z.pow_le_mono_r; lia.
Qed.

Lemma round_nearest_even_bounds (m : Z) (l : location) :
  m <= round_nearest_even m l <= m + 1.
Proof.
  destruct l as [| []]; cbn; try lia. destruct (Z.even m); lia.
Qed.

(** Rounding does not overflow when the number is below 2^1023. *)
Lemma binary_round_aux_no_overflow (s s' : bool) (m e : Z) (l : location) :
  0 <= m -> e <= 970 -> Zdigits2 m + e <= 1023 ->
  binary_round_aux prec emax s m e l <> S754_infinity s'.
Proof.
  intros Hm He Hd. unfold binary_round_aux.
  pose proof (shr_fexp_spec m e l Hm) as [He1 _].
  pose proof (shr_fexp_digits m e l Hm) as Hm1.
  destruct (shr_fexp prec emax m e l) as [mrs' e1]. cbn [fst snd] in *.
  pose proof (round_nearest_even_bounds (shr_m mrs') (loc_of_shr_record mrs'))
    as Hr.
  set (m2 := round_nearest_even (shr_m mrs') (loc_of_shr_record mrs')) in *.
  assert (Hm2 : 0 <= m2) by lia.
  pose proof (shr_fexp_spec m2 e1 loc_Exact Hm2) as [He2 _].
  assert (Hd2 : Zdigits2 m2 <= 54).
  { apply Zdigits2_le; lia. }
  destruct (shr_fexp prec emax m2 e1 loc_Exact) as [mrs'' e2].
  cbn [fst snd] in *.
  destruct (shr_m mrs''); try discriminate.
  rewrite fexp_unfold in He1, He2.
  destruct (Z.leb_spec e2 (emax - prec)) as [_ | Hgt]; [discriminate |].
  unfold emax, prec in Hgt. lia.
Qed.

(** Rounding a positive number whose exponent is not below the least one
    does not give a zero. *)
Lemma binary_round_aux_no_underflow (s s' : bool) (m e : Z) (l : location) :
  0 < m -> -1074 <= e ->
  binary_round_aux prec emax s m e l <> S754_zero s'.
Proof.
  intros Hm He. unfold binary_round_aux.
  pose proof (shr_fexp_spec m e l ltac:(lia)) as [He1 _].
  pose proof (shr_fexp_pos m e l Hm He) as Hm1.
  destruct (shr_fexp prec emax m e l) as [mrs' e1]. cbn [fst snd] in *.
  pose proof (round_nearest_even_bounds (shr_m mrs') (loc_of_shr_record mrs'))
    as Hr.
  set (m2 := round_nearest_even (shr_m mrs') (loc_of_shr_record mrs')) in *.
  pose proof (shr_fexp_pos m2 e1 loc_Exact ltac:(lia) ltac:(lia)) as Hm3.
  destruct (shr_fexp prec emax m2 e1 loc_Exact) as [mrs'' e2].
  cbn [fst snd] in *.
  destruct (shr_m mrs''); [lia | | discriminate].
  destruct (e2 <=? emax - prec); discriminate.
Qed.

End RoundingRange.

(** ** Translations the arrow is drawn for *)

Section SafeTranslations.

Local Open Scope float_scope.

(** A valid mantissa has at most 53 digits, and its exponent is not below
    the least one. *)
Lemma valid_mantissa (v : float) (s : bool) (m : positive) (e : Z) :
  Prim2SF v = S754_finite s m e ->
  (Z.pos m < 2 ^ 53)%Z /\ (-1074 <= e <= 971)%Z.
Proof.
  intros Hv. pose proof (Prim2SF_valid v) as Hvalid. rewrite Hv in Hvalid.
  unfold valid_binary, bounded, canonical_mantissa in Hvalid.
  apply andb_true_iff in Hvalid. destruct Hvalid as [Hc Hb].
  apply Z.eqb_eq in Hc. apply Z.leb_le in Hb.
  rewrite fexp_unfold in Hc. unfold emax, prec in Hb.
  split; [| lia].
  apply Z.lt_le_trans with (2 ^ Zdigits2 (Z.pos m))%Z;
    [apply Zdigits2_gt; lia |].
  apply Z.pow_le_mono_r; [lia |]. cbn [Zdigits2]. lia.
Qed.

(** The square of a number of magnitude below 2^511 is finite. *)
Lemma safe_component_no_overflow (v : float) :
  safe_component v = true -> pow2_overflows v = false.
Proof.
  unfold safe_component, pow2_overflows. intros H.
  destruct (is_nan v) eqn:Hn; [reflexivity |].
  destruct (is_infinity v) eqn:Hi; [reflexivity |].
  cbn [orb negb andb] in *.
  destruct (is_infinity (v * v)) eqn:Hsq; [exfalso | reflexivity].
  apply is_infinity_spec in Hsq. destruct Hsq as [s' Hsq].
  rewrite mul_spec in Hsq. unfold SF64mul in Hsq.
  rewrite leb_spec, abs_spec in H.
  change (Prim2SF 0x1.fffffffffffffp510)
    with (S754_finite false 9007199254740991 458) in H.
  destruct (Prim2SF v) as [s | s | | s m e] eqn:Hv; cbn [SFmul SFabs] in *;
    try discriminate.
  destruct (valid_mantissa v s m e Hv) as [Hm He].
  assert (He' : (e <= 458)%Z).
  { unfold SFleb in H. cbn [SFcompare] in H.
    destruct (Z.compare_spec e 458); [lia | lia | discriminate]. }
  revert Hsq. apply binary_round_aux_no_overflow; [lia | lia |].
  assert (Hd : (Zdigits2 (Z.pos (m * m)) <= 106)%Z).
  { apply Zdigits2_le; [lia | lia |].
    rewrite Pos2Z.inj_mul.
    change (2 ^ 106)%Z with (2 ^ 53 * 2 ^ 53)%Z.
    apply Z.mul_lt_mono_nonneg; lia. }
  lia.
Qed.

(** X9: when the transform service answers with a translation each
    component of which is NaN, an infinity or of magnitude below 2^511
    (about 6.7e153), [KalmanVizHandler.callback] returns and has published
    the arrow from the origin to the translation. *)
Theorem X9_kalman_publishes_in_safe_range (w : World)
    (res : PointWithCovarianceStamped) (resp : Tf2TransformResponse) :
  next_answer w "apple" "fake_grabber" = inr resp ->
  let t := translation (transform (resp_transform resp)) in
  safe_component (vx t) = true ->
  safe_component (vy t) = true ->
  safe_component (vz t) = true ->
  exists arrow s',
    KalmanVizHandler.callback res (KalmanVizHandler.__init__, w)
    = Returned tt s'
    /\ published (snd s')
       = (published w ++ [("visualization_marker", arrow)])%list
    /\ segments (points arrow) = [(Build_Point 0 0 0, Point_of_Vector3 t)]
    /\ identity arrow = arrow_identity.
Proof.
  intros Hans t Hx Hy Hz.
  pose proof (kalman_callback_state w res) as Hrun. cbv zeta in Hrun.
  rewrite Hans in Hrun. fold t in Hrun.
  assert (Hov : magnitude_overflows t = false).
  { unfold magnitude_overflows.
    now rewrite !safe_component_no_overflow. }
  rewrite Hov in Hrun.
  destruct Hrun as (arrow & w' & Hcb & Hpub & _ & _ & _ & _ & _ & Hpts & Hi & _).
  exists arrow, (KalmanVizHandler.__init__, w').
  split; [exact Hcb |]. split; [exact Hpub |].
  split; [now rewrite Hpts | exact Hi].
Qed.

(** X9 for the translation (1e150, -3, NaN). *)
Lemma X9_witness :
  exists arrow s',
    KalmanVizHandler.callback {| est_point := Point0 |}
      (KalmanVizHandler.__init__, fresh_world (inr (response_at 1e150 (-3) nan)))
    = Returned tt s'
    /\ published (snd s') = [("visualization_marker", arrow)]
    /\ segments (points arrow)
       = [(Build_Point 0 0 0, Build_Point 1e150 (-3) nan)].
Proof.
  destruct (X9_kalman_publishes_in_safe_range
              (fresh_world (inr (response_at 1e150 (-3) nan)))
              {| est_point := Point0 |} (response_at 1e150 (-3) nan)
              eq_refl eq_refl eq_refl eq_refl)
    as (arrow & s' & Hcb & Hpub & Hseg & _).
  exists arrow, s'. split; [exact Hcb |]. split; [exact Hpub | exact Hseg].
Defined.

Lemma Zdigits2_lower (m k : Z) :
  (0 <= k)%Z -> (2 ^ k <= m)%Z -> (k + 1 <= Zdigits2 m)%Z.
Proof.
  intros Hk Hm.
  assert (H0 : (0 < 2 ^ k)%Z) by (apply Z.pow_pos_nonneg; lia).
  pose proof (Zdigits2_gt m ltac:(lia)) as Hlt.
  pose proof (Zdigits2_nonneg m) as Hd.
  destruct (Z.le_gt_cases (k + 1) (Zdigits2 m)) as [H | H]; [exact H |].
  exfalso. assert (Hle : (2 ^ Zdigits2 m <= 2 ^ k)%Z)
    by (apply Z.pow_le_mono_r; lia).
  lia.
Qed.

(** Rounding overflows when the number is at least 2^1024. *)
Lemma binary_round_aux_overflow (s : bool) (m e : Z) (l : location) :
  (0 < m)%Z -> (-1074 <= e)%Z -> (1025 <= Zdigits2 m + e)%Z ->
  binary_round_aux prec emax s m e l = S754_infinity s.
Proof.
  intros Hm He Hd. unfold binary_round_aux.
  pose proof (shr_fexp_spec m e l ltac:(lia)) as [He1 _].
  pose proof (shr_fexp_pos m e l Hm He) as Hm1.
  destruct (shr_fexp prec emax m e l) as [mrs' e1]. cbn [fst snd] in *.
  pose proof (round_nearest_even_bounds (shr_m mrs') (loc_of_shr_record mrs'))
    as Hr.
  set (m2 := round_nearest_even (shr_m mrs') (loc_of_shr_record mrs')) in *.
  pose proof (shr_fexp_spec m2 e1 loc_Exact ltac:(lia)) as [He2 _].
  rewrite fexp_unfold in He1.
  pose proof (shr_fexp_pos m2 e1 loc_Exact ltac:(lia) ltac:(lia)) as Hm3.
  destruct (shr_fexp prec emax m2 e1 loc_Exact) as [mrs'' e2].
  cbn [fst snd] in *.
  destruct (shr_m mrs''); try lia.
  destruct (Z.leb_spec e2 (emax - prec)) as [Hle | _]; [| reflexivity].
  unfold emax, prec in Hle. lia.
Qed.

(** The square of a finite number of magnitude at least 2^512 is not
    finite. *)
Lemma large_component_overflows (v : float) :
  large_component v = true -> pow2_overflows v = true.
Proof.
  unfold large_component, pow2_overflows. rewrite andb_true_iff.
  intros [Hfin Hle].
  pose proof Hfin as Hfin'. unfold is_finite in Hfin'.
  rewrite negb_true_iff, orb_false_iff in Hfin'. destruct Hfin' as [Hn Hi].
  rewrite Hn, Hi. cbn [negb andb].
  apply is_infinity_spec. rewrite mul_spec. unfold SF64mul.
  rewrite leb_spec, abs_spec in Hle.
  change (Prim2SF 0x1p512) with (S754_finite false 4503599627370496 460) in Hle.
  apply is_finite_spec in Hfin.
  destruct Hfin as [[s Hv] | (s & m & e & Hv)]; rewrite Hv in *;
    [discriminate |].
  cbn [SFmul]. exists (xorb s s).
  assert (He : (460 <= e)%Z).
  { unfold SFleb in Hle. cbn [SFabs SFcompare] in Hle.
    destruct (Z.compare_spec 460 e); [lia | lia | discriminate]. }
  destruct (normal_of_leb v s m e Hv) as [Hd _].
  { rewrite leb_spec, abs_spec, Hv.
    change (Prim2SF 0x1p-1021)
      with (S754_finite false 4503599627370496 (-1073)).
    unfold SFleb. cbn [SFabs SFcompare].
    destruct (Z.compare_spec (-1073) e); [lia | reflexivity | lia]. }
  apply binary_round_aux_overflow; [lia | lia |].
  assert (Hm : (2 ^ 52 <= Z.pos m)%Z).
  { pose proof (Zdigits2_ge m) as H. cbn [Zdigits2] in H. rewrite Hd in H.
    exact H. }
  assert (Hsq : (105 <= Zdigits2 (Z.pos (m * m)))%Z).
  { apply (Zdigits2_lower _ 104); [lia |].
    rewrite Pos2Z.inj_mul. change (2 ^ 104)%Z with (2 ^ 52 * 2 ^ 52)%Z.
    apply Z.mul_le_mono_nonneg; lia. }
  lia.
Qed.

(** X10: when the transform service answers with a translation one
    component of which is finite and of magnitude at least 2^512 (about
    1.34e154), [KalmanVizHandler.callback] raises [OverflowError] and
    publishes nothing. *)
Theorem X10_kalman_raises_on_large_translation (w : World)
    (res : PointWithCovarianceStamped) (resp : Tf2TransformResponse) :
  next_answer w "apple" "fake_grabber" = inr resp ->
  let t := translation (transform (resp_transform resp)) in
  large_component (vx t) || large_component (vy t) || large_component (vz t)
  = true ->
  exists s',
    KalmanVizHandler.callback res (KalmanVizHandler.__init__, w)
    = Raised (OverflowError "Numerical result out of range") s'
    /\ published (snd s') = published w.
Proof.
  intros Hans t Hlarge.
  pose proof (kalman_callback_state w res) as Hrun. cbv zeta in Hrun.
  rewrite Hans in Hrun. fold t in Hrun.
  assert (Hov : magnitude_overflows t = true).
  { unfold magnitude_overflows.
    apply orb_true_iff in Hlarge. destruct Hlarge as [Hlarge | Hz].
    - apply orb_true_iff in Hlarge. destruct Hlarge as [Hx | Hy].
      + now rewrite (large_component_overflows _ Hx).
      + rewrite (large_component_overflows _ Hy). now rewrite orb_true_r.
    - rewrite (large_component_overflows _ Hz). now rewrite orb_true_r. }
  rewrite Hov in Hrun. eexists. split; [exact Hrun | reflexivity].
Qed.

(** X10 for the translation (0, 0, -2e154). *)
Lemma X10_witness :
  exists s',
    KalmanVizHandler.callback {| est_point := Point0 |}
      (KalmanVizHandler.__init__, fresh_world (inr (response_at 0 0 (-2e154))))
    = Raised (OverflowError "Numerical result out of range") s'
    /\ published (snd s') = [].
Proof.
  exact (X10_kalman_raises_on_large_translation
           (fresh_world (inr (response_at 0 0 (-2e154))))
           {| est_point := Point0 |} (response_at 0 0 (-2e154))
           eq_refl eq_refl).
Defined.

End SafeTranslations.

(** ** Detections of no extent, and distances of either sign *)

Section BoxGeometry.

Local Open Scope float_scope.

(** Rounding keeps the sign it is given. *)
Lemma binary_round_aux_sign (s : bool) (m e : Z) (l : location) :
  binary_round_aux prec emax s m e l <> S754_zero (negb s).
Proof.
  unfold binary_round_aux.
  destruct (shr_fexp prec emax m e l) as [mrs' e'].
  destruct (shr_fexp prec emax _ e' loc_Exact) as [mrs'' e''].
  destruct (shr_m mrs''); [destruct s; discriminate | | discriminate].
  destruct (e'' <=? emax - prec)%Z; discriminate.
Qed.

(** Subtracting a positive number never gives the negative zero. *)
Lemma sub_positive_not_neg_zero (u c : float) (mc : positive) (ec : Z) :
  Prim2SF c = S754_finite false mc ec ->
  Prim2SF (u - c) <> S754_zero true.
Proof.
  intros Hc. rewrite sub_spec, Hc. unfold SF64sub.
  destruct (valid_mantissa c false mc ec Hc) as [_ Hec].
  destruct (Prim2SF u) as [s | s | | s m e] eqn:Hu; cbn [SFsub];
    try discriminate.
  destruct (valid_mantissa u s m e Hu) as [_ He].
  unfold binary_normalize.
  destruct (cond_Zopp s (Z.pos (fst (shl_align m e (Z.min e ec))))
            - cond_Zopp false (Z.pos (fst (shl_align mc ec (Z.min e ec)))))%Z
    as [| p | p]; [discriminate | |].
  - unfold binary_round. destruct (shl_align _ _ _) as [mz ez].
    apply (binary_round_aux_sign false).
  - unfold binary_round, shl_align.
    set (ez := Z.min e ec).
    set (ex' := fexp prec emax (Z.pos (digits2_pos p) + ez)).
    assert (Hex' : (-1074 <= ex')%Z) by (subst ex'; rewrite fexp_unfold; lia).
    destruct (ex' - ez)%Z;
      apply binary_round_aux_no_underflow; lia.
Qed.

(** Adding a zero to anything but the negative zero changes nothing. *)
Lemma add_zero_r (u t : float) :
  is_zero t = true -> Prim2SF u <> S754_zero true -> u + t = u.
Proof.
  intros Ht Hu. apply is_zero_spec in Ht. destruct Ht as [st Ht].
  apply Prim2SF_inj. rewrite add_spec, Ht. unfold SF64add.
  destruct (Prim2SF u) as [s | s | | s m e]; cbn [SFadd]; try reflexivity.
  destruct s; [congruence |]. now destruct st.
Qed.

Lemma SFmul_opp_r (u v : spec_float) :
  SF64mul u (SFopp v) = SFopp (SF64mul u v).
Proof.
  unfold SF64mul.
  destruct u as [s | s | | s m e], v as [s' | s' | | s' m' e'];
    cbn [SFmul SFopp]; rewrite <- ?negb_xorb_r; try reflexivity.
  apply binary_round_aux_opp.
Qed.

Lemma mul_opp_r (u v : float) : u * (- v) = - (u * v).
Proof.
  apply Prim2SF_inj.
  now rewrite opp_spec, !mul_spec, opp_spec, SFmul_opp_r.
Qed.

Variables tan atan : float -> float.

(** X11: a detection of no width and no height gives a bounding box
    collapsed on one point, the projected top-left corner: all eight
    points of the marker are that point, whatever the position of the
    detection and the distance. *)
Theorem X11_zero_size_detection_is_a_point (w : World) (D : float)
    (det : RegionOfInterestWithCovarianceStamped) :
  zero_size det = true ->
  let corner := Spec.to_metres tan atan D (Spec.top_left det) in
  let p := Build_Point (fst corner) (snd corner) 0 in
  exists box cone s',
    CamVizHandler.make_cam_fov_marker tan atan D det
      (CamVizHandler.__init__, w) = Returned [box; cone] s'
    /\ points box = repeat p 8.
Proof.
  intros Hz corner p. unfold zero_size in Hz.
  apply andb_true_iff in Hz. destruct Hz as [Hw Hh].
  destruct (make_cam_fov_marker_run tan atan w D det)
    as (box & cone & Hrun & Hbox & _).
  exists box, cone, (CamVizHandler.__init__, tick (tick w)).
  split; [exact Hrun |].
  assert (Hbr : Spec.bottom_right det = Spec.top_left det).
  { unfold Spec.bottom_right, Spec.top_left. cbn [fst snd].
    rewrite !add_zero_r; try assumption; try reflexivity.
    - apply (sub_positive_not_neg_zero _ _ 6333186975989760 (-45)).
      reflexivity.
    - apply (sub_positive_not_neg_zero _ _ 5629499534213120 (-44)).
      reflexivity. }
  rewrite Hbox. unfold Spec.box, Spec.box_corners. rewrite Hbr.
  reflexivity.
Qed.

End BoxGeometry.

(** X11 for a point detection at (12, 34), at the distance 2. *)
Lemma X11_witness :
  let det := {| roi_x := 12; roi_y := 34; roi_w := 0; roi_h := 0 |} in
  exists box cone s' p,
    CamVizHandler.make_cam_fov_marker sample_tan sample_atan 2 det
      (CamVizHandler.__init__, fresh_world (inl SystemExit))
    = Returned [box; cone] s'
    /\ points box = repeat p 8.
Proof.
  intros det.
  destruct (X11_zero_size_detection_is_a_point sample_tan sample_atan
              (fresh_world (inl SystemExit)) 2 det eq_refl)
    as (box & cone & s' & Hrun & Hpts).
  exists box, cone, s'. eexists. split; [exact Hrun | exact Hpts].
Defined.

Section Reflection.

Local Open Scope float_scope.

Variables tan atan : float -> float.

(** X12: changing the sign of the distance reflects the drawing: the four
    edges of the cone keep the apex and send their far end to its
    reflection through the apex, the far rectangle goes to its reflection,
    every point of the bounding box goes to its reflection through the
    axis, and the offset of the box along the axis changes sign. *)
Theorem X12_opposite_distance_reflects (w w' : World) (D : float)
    (det : RegionOfInterestWithCovarianceStamped) :
  exists box cone s box' cone' s',
    CamVizHandler.make_cam_fov_marker tan atan D det
      (CamVizHandler.__init__, w) = Returned [box; cone] s
    /\ CamVizHandler.make_cam_fov_marker tan atan (- D) det
         (CamVizHandler.__init__, w') = Returned [box'; cone'] s'
    /\ firstn 4 (segments (points cone'))
       = map (fun sg => (fst sg, reflect (snd sg)))
             (firstn 4 (segments (points cone)))
    /\ skipn 4 (segments (points cone'))
       = map (fun sg => (reflect (fst sg), reflect (snd sg)))
             (skipn 4 (segments (points cone)))
    /\ points box' = map reflect_xy (points box)
    /\ z (position (pose box')) = - z (position (pose box)).
Proof.
  destruct (make_cam_fov_marker_run tan atan w D det)
    as (box & cone & Hrun & Hbox & Hcone & _ & _ & _ & _ & _ & _ & _ & _
        & Hpose & _).
  destruct (make_cam_fov_marker_run tan atan w' (- D) det)
    as (box' & cone' & Hrun' & Hbox' & Hcone' & _ & _ & _ & _ & _ & _ & _ & _
        & Hpose' & _).
  exists box, cone, (CamVizHandler.__init__, tick (tick w)),
         box', cone', (CamVizHandler.__init__, tick (tick w')).
  split; [exact Hrun |]. split; [exact Hrun' |].
  assert (HX : Spec.X tan atan (- D) = - Spec.X tan atan D)
    by apply mul_opp_l.
  assert (HY : Spec.Y tan atan (- D) = - Spec.Y tan atan D)
    by apply mul_opp_l.
  split; [| split; [| split]].
  - rewrite Hcone, Hcone', !segments_flat_map_ends.
    unfold Spec.cone, Spec.cone_corners. rewrite HX, HY. reflexivity.
  - rewrite Hcone, Hcone', !segments_flat_map_ends.
    unfold Spec.cone, Spec.cone_corners. rewrite HX, HY. reflexivity.
  - rewrite Hbox, Hbox'.
    unfold Spec.box, Spec.box_corners, Spec.to_metres. rewrite HX, HY.
    cbn [fst snd outline combine app flat_map ends map reflect_xy x y z].
    rewrite !mul_opp_r, !mul_opp_l. reflexivity.
  - now rewrite Hpose, Hpose'.
Qed.

End Reflection.

(** ** What an estimate message holds *)

Section EstimatesIgnored.

Variables tan atan : float -> float.

(** X13: the node makes nothing of what an estimate message holds: two
    runs of messages that differ only in the contents of their estimates
    leave the node, and all it has published, the same. *)
Theorem X13_estimate_contents_ignored (p : Node.t)
    (msgs msgs' : list Node.message) :
  Forall2 same_but_estimate msgs msgs' ->
  Node.spin tan atan p msgs = Node.spin tan atan p msgs'.
Proof.
  intros H. revert p. unfold Node.spin.
  induction H as [| m m' msgs msgs' Hm _ IH]; intros p; [reflexivity |].
  cbn [fold_left].
  replace (Node.deliver tan atan p m') with (Node.deliver tan atan p m);
    [apply IH |].
  destruct m as [cam | res], m' as [cam' | res']; cbn in Hm;
    try contradiction.
  - now subst cam'.
  - reflexivity.
Qed.

End EstimatesIgnored.

(** X13 for one detection between two estimates. *)
Lemma X13_witness :
  let p := Node.start (fresh_world (inr (response_at 0 0 1))) in
  Node.spin sample_tan sample_atan p
    [ Node.est_apple_pos {| est_point := Point0 |};
      Node.apple_camera full_frame;
      Node.est_apple_pos {| est_point := {| x := 1; y := 2; z := 3 |} |} ]
  = Node.spin sample_tan sample_atan p
      [ Node.est_apple_pos {| est_point := {| x := 4; y := 5; z := 6 |} |};
        Node.apple_camera full_frame;
        Node.est_apple_pos {| est_point := Point0 |} ].
Proof.
  intros p. apply X13_estimate_contents_ignored.
  repeat constructor.
Defined.
